(** * Checkout engine of the Luxury Fashion Store API

    A shallow embedding of [main.py] (the [/api/checkout] endpoint and the
    helpers it calls) and of the Pydantic models of [schemas.py], followed by
    the properties of the checkout transaction.

    - Python [int] is [Z]; Python [float] is IEEE-754 binary64, given by the
      standard library's executable specification [spec_float] at precision
      53 and maximal exponent 1024.
    - A raised exception is a value of [exn]; code that may raise returns a
      [result].
    - The database handle [db] is a record of two collections that is passed
      in and returned explicitly. *)

From Stdlib Require Import ZArith QArith Qabs List Lia Ascii.
From Stdlib Require Import Floats.SpecFloat.
From stdpp Require Import gmap strings list.

Local Open Scope string_scope.
Local Open Scope Z_scope.

(** ** Python values, exceptions and floats *)

Module Py.

(** The exceptions the endpoint can raise. [HTTPException] is FastAPI's;
    the others are not caught anywhere in [main.py] and surface as an
    internal server error. *)
Inductive exn : Type :=
| HTTPException (status_code : Z) (detail : string)
| ValidationError (locs : list string)
| TypeError
| ValueError
| OverflowError
| WriteError.

Inductive result (A : Type) : Type :=
| Ok (a : A)
| Raise (e : exn).
Arguments Ok {A} a.
Arguments Raise {A} e.

Definition bind {A B} (m : result A) (k : A -> result B) : result B :=
  match m with
  | Ok a => k a
  | Raise e => Raise e
  end.

(** binary64 *)
Definition prec : Z := 53.
Definition emax : Z := 1024.

Definition float : Type := spec_float.

(** [float(n)] for an integer [n] (only small constants are converted
    here, so the conversion is exact). *)
Definition float_of_int (n : Z) : float := binary_normalize prec emax n 0 false.

(** [x * y] on floats. *)
Definition float_mul (x y : float) : float := SFmul prec emax x y.

(** Nearest integer to [m / d] for [m >= 0] and [d > 0], ties to the even one. *)
Definition round_half_even_div (m d : Z) : Z :=
  let q := m / d in
  match (2 * (m mod d)) ?= d with
  | Lt => q
  | Gt => q + 1
  | Eq => if Z.even q then q else q + 1
  end.

(** The built-in [round(x)] with one argument, on a float: the nearest
    integer, ties to even, computed on the exact value of [x];
    [OverflowError] on an infinity and [ValueError] on a NaN. *)
Definition round (x : float) : result Z :=
  match x with
  | S754_nan => Raise ValueError
  | S754_infinity _ => Raise OverflowError
  | S754_zero _ => Ok 0
  | S754_finite s m e =>
      let n := if 0 <=? e then Z.pos m * 2 ^ e
               else round_half_even_div (Z.pos m) (2 ^ (- e)) in
      Ok (cond_Zopp s n)
  end.

End Py.
Import Py.

Declare Scope py_scope.
Delimit Scope py_scope with py.
Notation "'let*' x ':=' m 'in' k" := (Py.bind m (fun x => k))
  (at level 10, x pattern, m at level 100, k at level 200) : py_scope.
Local Open Scope py_scope.

(** ** schemas.py *)

(** A document of the [product] collection, as [find_one] returns it. The
    fields are those of the [Product] model; each may be absent from a stored
    document ([None] here), which is what the [prod.get(field, default)]
    calls of the endpoint provide for. [stock_qty] is declared
    [Optional[int]], so a present field holds an integer or Python's [None]:
    [Some None] is a stored null. The [_id] is the key under which the
    document is stored. *)
Module Product.
Record t : Type := mk {
  title : option string;
  description : option string;
  price : option float;
  category : option string;
  images : option (list string);
  sku : option string;
  in_stock : option bool;
  stock_qty : option (option Z)
}.
Definition set_stock_qty (v : option Z) (p : t) : t :=
  mk (title p) (description p) (price p) (category p) (images p) (sku p)
     (in_stock p) (Some v).
Definition set_in_stock (b : bool) (p : t) : t :=
  mk (title p) (description p) (price p) (category p) (images p) (sku p)
     (Some b) (stock_qty p).
End Product.

Module OrderItem.
Record t : Type := mk {
  product_id : string;
  title : string;
  unit_amount : Z;
  quantity : Z;
  image : option string
}.
(** Construction of the model: [unit_amount] is declared [ge=0] and
    [quantity] is declared [ge=1]; Pydantic checks every field and raises one
    [ValidationError] that lists the fields whose constraint is violated. *)
Definition new (product_id title : string) (unit_amount quantity : Z)
    (image : option string) : result t :=
  let errors := ((if unit_amount <? 0 then ["unit_amount"] else []) ++
                 (if quantity <? 1 then ["quantity"] else []))%list in
  match errors with
  | [] => Ok (mk product_id title unit_amount quantity image)
  | _ :: _ => Raise (ValidationError errors)
  end.
End OrderItem.

Module Order.
Record t : Type := mk {
  items : list OrderItem.t;
  currency : string;
  subtotal : Z;
  status : string;
  checkout_session_id : option string
}.
(** [Order(items=..., subtotal=...)]: the other fields take their declared
    defaults; [subtotal] is declared [ge=0]. *)
Definition new (items : list OrderItem.t) (subtotal : Z) : result t :=
  if subtotal <? 0 then Raise (ValidationError ["subtotal"])
  else Ok (mk items "usd" subtotal "pending" None).
End Order.

(** ** The database handle *)

(** An [ObjectId], written as the 24 lower-case hexadecimal digits that
    [str] prints for it. *)
Definition ObjectId : Type := string.

Module Database.
Record t : Type := mk {
  product : gmap ObjectId Product.t;
  order : list Order.t
}.

(** Modelled from the spec: the [database] module, which provides the handle
    [db], is not among the sources; this is the Catalog Store's
    [findById(id) -> Product | absent], here
    [db["product"].find_one({"_id": pid})]. *)
Definition find_one (db : t) (pid : ObjectId) : option Product.t :=
  product db !! pid.

(** The two update documents [create_checkout] sends:
    [{"$inc": {"stock_qty": delta}}] and [{"$set": {"in_stock": b}}]. *)
Inductive update : Type :=
| inc_stock_qty (delta : Z)
| set_in_stock (b : bool).

(** Modelled from the spec: the Catalog Store's [decrementStock(id, qty)] and
    [setAvailability(id, bool)], here
    [db["product"].update_one({"_id": pid}, u)]. When no document has that
    id, nothing is written. An increment adds to the stored integer, creates
    the field with value [delta] when it is absent, and is refused when the
    field is null. *)
Definition update_one (pid : ObjectId) (u : update) (db : t) : result t :=
  match product db !! pid with
  | None => Ok db
  | Some p =>
      match u with
      | inc_stock_qty delta =>
          match Product.stock_qty p with
          | None =>
              Ok (mk (<[pid := Product.set_stock_qty (Some delta) p]> (product db))
                    (order db))
          | Some None => Raise WriteError
          | Some (Some s) =>
              Ok (mk (<[pid := Product.set_stock_qty (Some (s + delta)) p]> (product db))
                    (order db))
          end
      | set_in_stock b =>
          Ok (mk (<[pid := Product.set_in_stock b p]> (product db)) (order db))
      end
  end.

(** Modelled from the spec: [create_document] of the [database] module is not
    among the sources; the spec has it insert the Order and return a new
    order id. The collection is the list of inserted documents in insertion
    order and the new id is the document's position in it. *)
Definition create_document (o : Order.t) (db : t) : nat * t :=
  (length (order db), mk (product db) (order db ++ [o])).
End Database.

(** ** main.py *)

(** One hexadecimal digit, in lower case; [None] for any other character. *)
Definition hex_digit (c : ascii) : option ascii :=
  match c with
  | "0" | "1" | "2" | "3" | "4" | "5" | "6" | "7" | "8" | "9"
  | "a" | "b" | "c" | "d" | "e" | "f" => Some c
  | "A" => Some "a" | "B" => Some "b" | "C" => Some "c"
  | "D" => Some "d" | "E" => Some "e" | "F" => Some "f"
  | _ => None
  end%char.

Fixpoint hex_digits (s : string) : option string :=
  match s with
  | EmptyString => Some EmptyString
  | String c s' =>
      match hex_digit c, hex_digits s' with
      | Some c', Some t => Some (String c' t)
      | _, _ => None
      end
  end.

(** [ObjectId(id_str)] on a string: accepted when it is 24 hexadecimal
    digits (of either case), and invalid otherwise. *)
Definition ObjectId_of_str (id_str : string) : option ObjectId :=
  if Nat.eqb (String.length id_str) 24 then hex_digits id_str else None.

Definition ensure_object_id (id_str : string) : result ObjectId :=
  match ObjectId_of_str id_str with
  | Some oid => Ok oid
  | None => Raise (HTTPException 400 "Invalid ID format")
  end.

Module CartItem.
Record t : Type := mk {
  product_id : string;
  quantity : Z
}.
End CartItem.

Module CheckoutRequest.
Record t : Type := mk {
  items : list CartItem.t
}.
End CheckoutRequest.

(** The dictionary the endpoint returns. *)
Module CheckoutResponse.
Record t : Type := mk {
  order_id : nat;
  status : string;
  subtotal : Z;
  currency : string
}.
End CheckoutResponse.

(** The three variables the first loop of [create_checkout] accumulates. *)
Record cart_state : Type := mk_cart_state {
  order_items : list OrderItem.t;
  subtotal_cents : Z;
  stock_updates : list (ObjectId * Z)
}.

(** [not prod.get("in_stock", True) or (prod.get("stock_qty", 0) < quantity)];
    [or] does not evaluate its right operand when the left one holds, and
    [None < quantity] raises [TypeError]. *)
Definition lacks_stock (prod : Product.t) (quantity : Z) : result bool :=
  if negb (default true (Product.in_stock prod)) then Ok true
  else match default (Some 0) (Product.stock_qty prod) with
       | None => Raise TypeError
       | Some s => Ok (s <? quantity)
       end.

(** [int(round(float(prod.get("price", 0)) * 100))] *)
Definition unit_amount_of (prod : Product.t) : result Z :=
  round (float_mul (default (float_of_int 0) (Product.price prod)) (float_of_int 100)).

(** [imgs = prod.get("images") or []], then [imgs[0]] when there is one. *)
Definition first_image (prod : Product.t) : option string :=
  match default [] (Product.images prod) with
  | [] => None
  | img :: _ => Some img
  end.

(** The body of the loop [for item in req.items]. *)
Definition cart_line (db : Database.t) (st : cart_state) (item : CartItem.t)
  : result cart_state :=
  let* pid := ensure_object_id (CartItem.product_id item) in
  match Database.find_one db pid with
  | None =>
      Raise (HTTPException 404 ("Product " ++ CartItem.product_id item ++ " not found"))
  | Some prod =>
      let* short := lacks_stock prod (CartItem.quantity item) in
      if (short : bool) then
        Raise (HTTPException 400
                 ("Insufficient stock for " ++ default "item" (Product.title prod)))
      else
        let* unit_amount := unit_amount_of prod in
        let subtotal_cents' := subtotal_cents st + unit_amount * CartItem.quantity item in
        let* oi := OrderItem.new pid (default "Product" (Product.title prod))
                     unit_amount (CartItem.quantity item) (first_image prod) in
        Ok (mk_cart_state (order_items st ++ [oi]) subtotal_cents'
              (stock_updates st ++ [(pid, CartItem.quantity item)]))
  end.

Fixpoint for_items (db : Database.t) (items : list CartItem.t) (st : cart_state)
  : result cart_state :=
  match items with
  | [] => Ok st
  | item :: rest => let* st' := cart_line db st item in for_items db rest st'
  end.

(** The body of the loop [for pid, qty in stock_updates]: the decrement, the
    re-read, and the flag update when the stock is not positive. The
    database is returned as the raise, if any, leaves it. *)
Definition stock_update (u : ObjectId * Z) (db : Database.t)
  : result unit * Database.t :=
  let '(pid, qty) := u in
  match Database.update_one pid (Database.inc_stock_qty (- qty)) db with
  | Raise e => (Raise e, db)
  | Ok db1 =>
      match Database.find_one db1 pid with
      | None => (Ok tt, db1)
      | Some pdoc =>
          match default (Some 0) (Product.stock_qty pdoc) with
          | None => (Raise TypeError, db1)
          | Some s =>
              if s <=? 0 then
                match Database.update_one pid (Database.set_in_stock false) db1 with
                | Raise e => (Raise e, db1)
                | Ok db2 => (Ok tt, db2)
                end
              else (Ok tt, db1)
          end
      end
  end.

Fixpoint for_stock_updates (us : list (ObjectId * Z)) (db : Database.t)
  : result unit * Database.t :=
  match us with
  | [] => (Ok tt, db)
  | u :: rest =>
      match stock_update u db with
      | (Raise e, db') => (Raise e, db')
      | (Ok _, db') => for_stock_updates rest db'
      end
  end.

(** [POST /api/checkout] *)
Definition create_checkout (req : CheckoutRequest.t) (db : Database.t)
  : result CheckoutResponse.t * Database.t :=
  match CheckoutRequest.items req with
  | [] => (Raise (HTTPException 400 "Cart is empty"), db)
  | _ :: _ =>
      match for_items db (CheckoutRequest.items req) (mk_cart_state [] 0 []) with
      | Raise e => (Raise e, db)
      | Ok st =>
          match Order.new (order_items st) (subtotal_cents st) with
          | Raise e => (Raise e, db)
          | Ok order =>
              let '(order_id, db1) := Database.create_document order db in
              match for_stock_updates (stock_updates st) db1 with
              | (Raise e, db2) => (Raise e, db2)
              | (Ok _, db2) =>
                  (Ok (CheckoutResponse.mk order_id "confirmed"
                         (Order.subtotal order) (Order.currency order)), db2)
              end
          end
      end
  end.

(** ** Notions the properties are stated with *)

(** The state in which the first loop starts. *)
Definition empty_cart_state : cart_state := mk_cart_state [] 0 [].

(** The exact value of a finite float, as a rational. *)
Definition float_exact (x : float) : option Q :=
  match x with
  | S754_zero _ => Some (inject_Z 0)
  | S754_finite s m e =>
      let v := cond_Zopp s (Z.pos m) in
      Some (if 0 <=? e then inject_Z (v * 2 ^ e) else Qmake v (Z.to_pos (2 ^ (- e))))
  | S754_infinity _ | S754_nan => None
  end.

(** [n] is the rounding of the float [x] to the nearest integer, a tie going
    to the even neighbour (round-half-to-even). *)
Definition rounds_half_even (x : float) (n : Z) : Prop :=
  exists v : Q,
    float_exact x = Some v /\
    (Qabs (v - inject_Z n) <= 1 # 2)%Q /\
    ((Qabs (v - inject_Z n) == 1 # 2)%Q -> Z.even n = true).

(** The float whose hundredfold [create_checkout] rounds for a product. *)
Definition price_times_100 (prod : Product.t) : float :=
  float_mul (default (float_of_int 0) (Product.price prod)) (float_of_int 100).

(** Sum of [unit_amount * quantity] over order items. *)
Definition lines_total (ois : list OrderItem.t) : Z :=
  foldr (fun oi acc => OrderItem.unit_amount oi * OrderItem.quantity oi + acc) 0 ois.

(** The order item [oi] is the snapshot of the cart line [item]: the product
    the line's id resolves to in the store [db], with the unit amount
    computed from that product's stored price and the line's quantity. *)
Definition priced_from_store (db : Database.t) (item : CartItem.t)
    (oi : OrderItem.t) : Prop :=
  exists pid prod,
    ObjectId_of_str (CartItem.product_id item) = Some pid /\
    Database.find_one db pid = Some prod /\
    unit_amount_of prod = Ok (OrderItem.unit_amount oi) /\
    OrderItem.quantity oi = CartItem.quantity item.

(** The stock condition on which a line is rejected: [in_stock] is false, or
    [stock_qty] (0 when the field is absent) is below the quantity. *)
Definition insufficient_stock (prod : Product.t) (quantity : Z) : Prop :=
  Product.in_stock prod = Some false \/
  exists s, default (Some 0) (Product.stock_qty prod) = Some s /\ s < quantity.

(** A cart line that fails validation: the id is malformed, or it resolves
    to no product, or the product's stock is insufficient. *)
Definition line_fails_validation (db : Database.t) (item : CartItem.t) : Prop :=
  match ObjectId_of_str (CartItem.product_id item) with
  | None => True
  | Some pid =>
      match Database.find_one db pid with
      | None => True
      | Some prod => insufficient_stock prod (CartItem.quantity item)
      end
  end.

(** The integer stored as [stock_qty] of the product [pid], if any. *)
Definition stock_qty_of (db : Database.t) (pid : ObjectId) : option Z :=
  match Database.find_one db pid with
  | Some p => match Product.stock_qty p with Some (Some s) => Some s | _ => None end
  | None => None
  end.

(** The stored [in_stock] flag of the product [pid], if any. *)
Definition in_stock_of (db : Database.t) (pid : ObjectId) : option bool :=
  match Database.find_one db pid with
  | Some p => Product.in_stock p
  | None => None
  end.

(** Total quantity the updates [us] take from the product [pid]. *)
Definition demand (pid : ObjectId) (us : list (ObjectId * Z)) : Z :=
  foldr (fun u acc => if decide (u.1 = pid) then u.2 + acc else acc) 0 us.

(** The stock updates a cart asks for: one per line whose id is well formed. *)
Definition cart_updates (items : list CartItem.t) : list (ObjectId * Z) :=
  omap (fun item => match ObjectId_of_str (CartItem.product_id item) with
                    | Some pid => Some (pid, CartItem.quantity item)
                    | None => None
                    end) items.

(** The document a stock update of quantity [q] leaves for a product [p]
    that had the integer stock [s]. *)
Definition after_update (q s : Z) (p : Product.t) : Product.t :=
  let p' := Product.set_stock_qty (Some (s - q)) p in
  if s - q <=? 0 then Product.set_in_stock false p' else p'.

(** The four errors of the endpoint's taxonomy. *)
Definition EmptyCart : exn := HTTPException 400 "Cart is empty".

(** ** A small catalog to run the endpoint on *)

Definition f64_199_99 : float := S754_finite false 7036522574045512 (-45).
Definition f64_0_125 : float := S754_finite false 4503599627370496 (-55).
Definition f64_0_375 : float := S754_finite false 6755399441055744 (-54).
Definition f64_0_005 : float := S754_finite false 5764607523034235 (-60).

Definition scarf_id : ObjectId := "64b7f0c2a1d3e4f5a6b7c8d9".
Definition bag_id : ObjectId := "64b7f0c2a1d3e4f5a6b7c8da".
Definition relic_id : ObjectId := "64b7f0c2a1d3e4f5a6b7c8db".

Definition scarf : Product.t :=
  Product.mk (Some "Silk Scarf") None (Some f64_199_99) (Some "scarves")
    (Some ["https://img.example/scarf.png"]) None (Some true) (Some (Some 5)).

Definition bag : Product.t :=
  Product.mk (Some "Tote Bag") None (Some f64_0_375) (Some "bags")
    (Some []) None (Some true) (Some (Some 10)).

(** A document that lacks [price], [in_stock] and [stock_qty]. *)
Definition relic : Product.t :=
  Product.mk (Some "Relic") None None None None None None None.


(** A product document with the given price, one unit in stock. *)
Definition priced (x : float) : Product.t :=
  Product.mk (Some "Item") None (Some x) None None None (Some true) (Some (Some 1)).

Definition catalog : Database.t :=
  Database.mk (<[scarf_id := scarf]> (<[bag_id := bag]> (<[relic_id := relic]> ∅))) [].


Definition cart_of (lines : list (string * Z)) : CheckoutRequest.t :=
  CheckoutRequest.mk (map (fun l => CartItem.mk l.1 l.2) lines).

(** ** main.py, the product endpoints *)

(** The values found in the dictionaries the endpoints pass around. *)
#[warnings="-register-all"]
Inductive value : Type :=
| VNone
| VBool (b : bool)
| VInt (n : Z)
| VFloat (x : float)
| VStr (s : string)
| VObjectId (oid : ObjectId)
| VList (l : list value).

(** The dictionary [find_one] returns for a stored product: the [_id] and
    the fields the document has. *)
Definition with_field (k : string) (v : option value) (d : gmap string value)
  : gmap string value :=
  match v with
  | Some x => <[k := x]> d
  | None => d
  end.

Definition stock_value (s : option Z) : value :=
  match s with
  | Some n => VInt n
  | None => VNone
  end.

Definition product_doc (pid : ObjectId) (p : Product.t) : gmap string value :=
  <["_id" := VObjectId pid]>
    (with_field "title" (VStr <$> Product.title p)
    (with_field "description" (VStr <$> Product.description p)
    (with_field "price" (VFloat <$> Product.price p)
    (with_field "category" (VStr <$> Product.category p)
    (with_field "images" ((fun l => VList (VStr <$> l)) <$> Product.images p)
    (with_field "sku" (VStr <$> Product.sku p)
    (with_field "in_stock" (VBool <$> Product.in_stock p)
    (with_field "stock_qty" (stock_value <$> Product.stock_qty p) ∅)))))))).

Section ProductEndpoints.

(** Python's [str] on a value. Only what it returns for an [ObjectId], its
    24 lower-case hexadecimal digits, is used below, and only where stated. *)
Variable str : value -> string.

(** [to_str_id(doc)], for [doc] either [None] or a dictionary: a falsy [doc]
    is returned as it is; otherwise a non-[None] [_id] is removed and its
    [str] is stored under [id]. *)
Definition to_str_id (doc : option (gmap string value)) : option (gmap string value) :=
  match doc with
  | None => None
  | Some d =>
      if Nat.eqb (size d) 0 then doc
      else
        match d !! "_id" with
        | None | Some VNone => Some d
        | Some v => Some (<["id" := VStr (str v)]> (delete "_id" d))
        end
  end.

(** [GET /api/products/{product_id}] *)
Definition get_product (product_id : string) (db : Database.t)
  : result (option (gmap string value)) :=
  let* _id := ensure_object_id product_id in
  match Database.find_one db _id with
  | None => Raise (HTTPException 404 "Product not found")
  | Some prod => Ok (to_str_id (Some (product_doc _id prod)))
  end.

(** Modelled from the spec: [get_documents] of the [database] module is not
    among the sources; it is the Catalog Store's [list() -> sequence of
    Product]. The documents come in the order in which the map enumerates
    them; nothing below depends on that order. *)
Definition get_documents (db : Database.t) : list (gmap string value) :=
  (fun e => product_doc e.1 e.2) <$> map_to_list (Database.product db).

(** [GET /api/products] *)
Definition list_products (db : Database.t) : list (option (gmap string value)) :=
  (fun d => to_str_id (Some d)) <$> get_documents db.

End ProductEndpoints.

(** [str] on the values that can be rendered here; an [ObjectId] gives its
    hexadecimal digits and a string gives itself. *)
Definition str_id (v : value) : string :=
  match v with
  | VObjectId oid => oid
  | VStr s => s
  | VNone => "None"
  | VBool true => "True"
  | VBool false => "False"
  | _ => ""
  end.

(** ** main.py, the health check *)

(** What evaluating an expression under [try] gives: its value, or an
    exception [e], kept as its message [str(e)]. *)
Inductive attempt (A : Type) : Type :=
| Returns (a : A)
| Throws (message : string).
Arguments Returns {A} a.
Arguments Throws {A} message.

(** The handle [db] of the [database] module, as far as [test_database]
    looks at it: [db.name] and [db.list_collection_names()]. *)
Record handle : Type := mk_handle {
  name : attempt string;
  list_collection_names : attempt (list string)
}.

(** The dictionary [test_database] builds. *)
Record health : Type := mk_health {
  backend : string;
  database : string;
  database_url : option string;
  database_name : option string;
  connection_status : string;
  collections : list string
}.

(** A byte that continues a UTF-8 encoded character (10xxxxxx). *)
Definition is_continuation (c : ascii) : bool :=
  let n := nat_of_ascii c in (128 <=? n)%nat && (n <? 192)%nat.

(** [s[:n]] on a Python string held as UTF-8: its first [n] characters. *)
Fixpoint str_take (n : nat) (s : string) : string :=
  match s with
  | EmptyString => EmptyString
  | String c rest =>
      if is_continuation c then String c (str_take n rest)
      else match n with
           | O => EmptyString
           | S n' => String c (str_take n' rest)
           end
  end.

(** Truth value of what [os.getenv] returns: [None] and the empty string are
    false. *)
Definition env_set (v : option string) : bool :=
  match v with
  | None | Some EmptyString => false
  | Some _ => true
  end.

(** [GET /test], for a handle [db] that is [None] or a database, in the
    environment [getenv]. *)
Definition test_database (db : option handle) (getenv : string -> option string)
  : health :=
  let response :=
    mk_health "✅ Running" "❌ Not Available" None None "Not Connected" [] in
  let response :=
    match db with
    | Some h =>
        let response :=
          mk_health (backend response) "✅ Available" (database_url response)
            (database_name response) (connection_status response)
            (collections response) in
        match name h with
        | Throws e =>
            mk_health (backend response) ("❌ Error: " ++ str_take 80 e)
              (database_url response) (database_name response)
              (connection_status response) (collections response)
        | Returns db_name =>
            let response :=
              mk_health (backend response) (database response)
                (database_url response) (Some db_name) "Connected"
                (collections response) in
            match list_collection_names h with
            | Returns names =>
                mk_health (backend response) "✅ Connected & Working"
                  (database_url response) (database_name response)
                  (connection_status response) (take 10 names)
            | Throws e =>
                mk_health (backend response)
                  ("⚠️ Connected but Error: " ++ str_take 80 e)
                  (database_url response) (database_name response)
                  (connection_status response) (collections response)
            end
        end
    | None =>
        mk_health (backend response) "⚠️ Available but not initialized"
          (database_url response) (database_name response)
          (connection_status response) (collections response)
    end in
  let response :=
    mk_health (backend response) (database response)
      (Some (if env_set (getenv "DATABASE_URL") then "✅ Set" else "❌ Not Set"))
      (database_name response) (connection_status response) (collections response) in
  mk_health (backend response) (database response) (database_url response)
    (Some (if env_set (getenv "DATABASE_NAME") then "✅ Set" else "❌ Not Set"))
    (connection_status response) (collections response).

(** ** Further notions for the properties *)

(** [Product.price] is declared [ge=0]: the value is accepted when
    [price >= 0] holds, which it does not for a NaN. *)
Definition price_ge_0 (x : float) : bool := SFleb (float_of_int 0) x.

(** What a cart line adds to the subtotal: the unit amount of the stored
    product times the quantity (0 when the line does not resolve). *)
Definition line_amount (db : Database.t) (item : CartItem.t) : Z :=
  match ObjectId_of_str (CartItem.product_id item) with
  | Some pid =>
      match Database.find_one db pid with
      | Some prod =>
          match unit_amount_of prod with
          | Ok n => n * CartItem.quantity item
          | Raise _ => 0
          end
      | None => 0
      end
  | None => 0
  end.

Definition cart_total (db : Database.t) (items : list CartItem.t) : Z :=
  foldr (fun item acc => line_amount db item + acc) 0 items.

(** Two product documents that differ at most in [stock_qty] and
    [in_stock]. *)
Definition same_listing (p p' : Product.t) : Prop :=
  Product.title p' = Product.title p /\
  Product.description p' = Product.description p /\
  Product.price p' = Product.price p /\
  Product.category p' = Product.category p /\
  Product.images p' = Product.images p /\
  Product.sku p' = Product.sku p.

(** A cart line that [create_checkout] accepts when it is the only one. *)
Definition line_accepted (db : Database.t) (item : CartItem.t) : Prop :=
  exists resp db', create_checkout (CheckoutRequest.mk [item]) db = (Ok resp, db').

(** The number of characters of a Python string held as UTF-8. *)
Fixpoint str_len (s : string) : nat :=
  match s with
  | EmptyString => O
  | String c rest => if is_continuation c then str_len rest else S (str_len rest)
  end.


(** Two more documents: one whose [stock_qty] is null and one whose price is
    infinite (both pass the [Product] model), and a catalog holding them. *)
Definition veil_id : ObjectId := "64b7f0c2a1d3e4f5a6b7c8dc".
Definition gem_id : ObjectId := "64b7f0c2a1d3e4f5a6b7c8dd".

Definition veil : Product.t :=
  Product.mk (Some "Veil") None (Some f64_0_125) None (Some []) None (Some true) (Some None).

Definition gem : Product.t :=
  Product.mk (Some "Gem") None (Some (S754_infinity false)) None (Some []) None
    (Some true) (Some (Some 1)).

Definition catalog_odd : Database.t :=
  Database.mk (<[scarf_id := scarf]> (<[veil_id := veil]> (<[gem_id := gem]> ∅))) [].
(** ** Rounding *)

Lemma round_half_even_div_spec (m d : Z) :
  0 <= m -> 0 < d ->
  let r := round_half_even_div m d in
  2 * Z.abs (m - r * d) <= d /\
  (2 * Z.abs (m - r * d) = d -> Z.even r = true).
Proof.
  intros Hm Hd. unfold round_half_even_div.
  pose proof (Z.div_mod m d ltac:(lia)) as Hdm.
  pose proof (Z.mod_pos_bound m d Hd) as Hrem.
  set (q := m / d) in *. set (t := m mod d) in *.
  assert (H0 : m - q * d = t) by lia.
  assert (H1 : m - (q + 1) * d = t - d) by lia.
  destruct (Z.compare_spec (2 * t) d) as [Heq | Hlt | Hgt]; cbn zeta.
  - destruct (Z.even q) eqn:Hev.
    + rewrite H0. split; [lia | done].
    + rewrite H1. split; [lia |]. intros _. rewrite Z.even_add, Hev. reflexivity.
  - rewrite H0. split; lia.
  - rewrite H1. split; lia.
Qed.

Lemma Qabs_diff_half (a n : Z) (d : positive) :
  ((Qabs (Qmake a d - inject_Z n) <= 1 # 2)%Q <-> 2 * Z.abs (a - n * Z.pos d) <= Z.pos d) /\
  ((Qabs (Qmake a d - inject_Z n) == 1 # 2)%Q <-> 2 * Z.abs (a - n * Z.pos d) = Z.pos d).
Proof.
  unfold Qminus, Qplus, Qopp, inject_Z, Qabs, Qle, Qeq; cbn [Qnum Qden].
  rewrite Pos.mul_1_r.
  replace (a * 1 + - n * Z.pos d) with (a - n * Z.pos d) by lia.
  split; split; lia.
Qed.

Lemma round_rounds_half_even (x : float) (n : Z) :
  round x = Ok n -> rounds_half_even x n.
Proof.
  destruct x as [s | s | | s m e]; cbn; intros H; try discriminate.
  - injection H as <-. exists (inject_Z 0). split; [done |].
    destruct (Qabs_diff_half 0 0 1) as [Hle Heq]. change (inject_Z 0) with (0 # 1)%Q at 1 3.
    split; [apply (proj2 Hle); lia | intros Ht; apply (proj1 Heq) in Ht; lia].
  - injection H as <-. eexists. split; [reflexivity |].
    destruct (0 <=? e) eqn:He.
    + set (v := cond_Zopp s (Z.pos m)).
      replace (cond_Zopp s (Z.pos m * 2 ^ e)) with (v * 2 ^ e)
        by (subst v; destruct s; cbn; lia).
      destruct (Qabs_diff_half (v * 2 ^ e) (v * 2 ^ e) 1) as [Hle Heq].
      change (inject_Z (v * 2 ^ e)) with ((v * 2 ^ e) # 1)%Q at 1 3.
      split; [apply (proj2 Hle); lia | intros Ht; apply (proj1 Heq) in Ht; lia].
    + apply Z.leb_gt in He.
      assert (Hd : 0 < 2 ^ (- e)) by (apply Z.pow_pos_nonneg; lia).
      destruct (round_half_even_div_spec (Z.pos m) (2 ^ (- e)) ltac:(lia) Hd) as [Hle Hev].
      set (r := round_half_even_div (Z.pos m) (2 ^ (- e))) in *.
      destruct (Qabs_diff_half (cond_Zopp s (Z.pos m)) (cond_Zopp s r) (Z.to_pos (2 ^ (- e))))
        as [HQle HQeq].
      rewrite Z2Pos.id in HQle, HQeq by exact Hd.
      assert (Habs : Z.abs (cond_Zopp s (Z.pos m) - cond_Zopp s r * 2 ^ (- e))
                     = Z.abs (Z.pos m - r * 2 ^ (- e))) by (destruct s; cbn; lia).
      rewrite Habs in HQle, HQeq.
      split; [apply (proj2 HQle); exact Hle |].
      intros Ht. apply (proj1 HQeq) in Ht.
      destruct s; cbn; [rewrite Z.even_opp |]; auto.
Qed.

(** ** The validation pass *)

Lemma lacks_stock_true (prod : Product.t) (q : Z) :
  lacks_stock prod q = Ok true <-> insufficient_stock prod q.
Proof.
  unfold lacks_stock, insufficient_stock.
  destruct (Product.in_stock prod) as [[] |]; cbn.
  - destruct (default (Some 0) (Product.stock_qty prod)) as [s |]; split.
    + intros [= H%Z.ltb_lt]. right. eauto.
    + intros [[=] | (s' & [= <-] & H%Z.ltb_lt)]. by rewrite H.
    + discriminate.
    + intros [[=] | (s' & [=] & _)].
  - split; auto.
  - destruct (default (Some 0) (Product.stock_qty prod)) as [s |]; split.
    + intros [= H%Z.ltb_lt]. right. eauto.
    + intros [[=] | (s' & [= <-] & H%Z.ltb_lt)]. by rewrite H.
    + discriminate.
    + intros [[=] | (s' & [=] & _)].
Qed.

Lemma lacks_stock_false (prod : Product.t) (q : Z) :
  lacks_stock prod q = Ok false ->
  Product.in_stock prod <> Some false /\
  exists s, default (Some 0) (Product.stock_qty prod) = Some s /\ q <= s.
Proof.
  unfold lacks_stock.
  destruct (Product.in_stock prod) as [[] |]; cbn; try discriminate;
    (destruct (default (Some 0) (Product.stock_qty prod)) as [s |]; [| discriminate]);
    intros [= H%Z.ltb_ge]; (split; [congruence | eauto]).
Qed.

Lemma cart_line_ok (db : Database.t) (st st' : cart_state) (item : CartItem.t) :
  cart_line db st item = Ok st' ->
  exists pid prod n s,
    ObjectId_of_str (CartItem.product_id item) = Some pid /\
    Database.find_one db pid = Some prod /\
    Product.in_stock prod <> Some false /\
    Product.stock_qty prod = Some (Some s) /\
    1 <= CartItem.quantity item <= s /\
    unit_amount_of prod = Ok n /\ 0 <= n /\
    st' = mk_cart_state
            (order_items st ++
               [OrderItem.mk pid (default "Product" (Product.title prod)) n
                  (CartItem.quantity item) (first_image prod)])
            (subtotal_cents st + n * CartItem.quantity item)
            (stock_updates st ++ [(pid, CartItem.quantity item)]).
Proof.
  unfold cart_line, ensure_object_id.
  destruct (ObjectId_of_str (CartItem.product_id item)) as [pid |] eqn:Hid;
    [cbn | discriminate].
  destruct (Database.find_one db pid) as [prod |] eqn:Hfind; [| discriminate].
  destruct (lacks_stock prod (CartItem.quantity item)) as [[] |] eqn:Hl; cbn; try discriminate.
  destruct (unit_amount_of prod) as [n |] eqn:Hn; cbn; [| discriminate].
  unfold OrderItem.new.
  destruct (n <? 0) eqn:Hn0; destruct (CartItem.quantity item <? 1) eqn:Hq;
    cbn; try discriminate.
  intros [= <-].
  apply Z.ltb_ge in Hn0, Hq.
  destruct (lacks_stock_false _ _ Hl) as (Hflag & s & Hs & Hle).
  destruct (Product.stock_qty prod) as [[s' |] |] eqn:Hst; cbn in Hs.
  - injection Hs as ->. exists pid, prod, n, s.
    split; [done |]. split; [done |]. split; [done |]. split; [done |].
    split; [lia |]. split; [done |]. split; [lia | done].
  - discriminate.
  - injection Hs as <-. lia.
Qed.

Lemma cart_line_fails_validation (db : Database.t) (st : cart_state) (item : CartItem.t) :
  line_fails_validation db item -> exists e, cart_line db st item = Raise e.
Proof.
  unfold line_fails_validation, cart_line, ensure_object_id.
  destruct (ObjectId_of_str (CartItem.product_id item)) as [pid |]; [cbn | eauto].
  destruct (Database.find_one db pid) as [prod |]; [| eauto].
  intros H%lacks_stock_true. rewrite H. cbn. eauto.
Qed.

Lemma cart_line_quantity_below_1 (db : Database.t) (st : cart_state) (item : CartItem.t) :
  CartItem.quantity item < 1 -> exists e, cart_line db st item = Raise e.
Proof.
  intros Hq. destruct (cart_line db st item) as [st' |] eqn:H; [| eauto].
  apply cart_line_ok in H as (? & ? & ? & ? & _ & _ & _ & _ & ? & _). lia.
Qed.

Lemma for_items_raise_exists (P : CartItem.t -> Prop) (db : Database.t) :
  (forall st item, P item -> exists e, cart_line db st item = Raise e) ->
  forall items st, Exists P items -> exists e, for_items db items st = Raise e.
Proof.
  intros HP items. induction items as [| item rest IH]; intros st Hex.
  - inversion Hex.
  - cbn. destruct (cart_line db st item) as [st' |] eqn:Hline; cbn; [| eauto].
    apply Exists_cons in Hex as [Hhere | Hrest]; [| auto].
    destruct (HP st item Hhere) as [e He]. congruence.
Qed.

Lemma for_items_app (db : Database.t) (pre rest : list CartItem.t) (st st1 : cart_state) :
  for_items db pre st = Ok st1 ->
  for_items db (pre ++ rest) st = for_items db rest st1.
Proof.
  revert st. induction pre as [| item pre IH]; intros st; cbn.
  - by intros [= ->].
  - destruct (cart_line db st item); cbn; [apply IH | discriminate].
Qed.

Lemma for_items_ok (db : Database.t) (items : list CartItem.t) :
  forall st st', for_items db items st = Ok st' ->
  exists ois,
    order_items st' = (order_items st ++ ois)%list /\
    Forall2 (priced_from_store db) items ois /\
    Forall (fun oi => 0 <= OrderItem.unit_amount oi /\ 1 <= OrderItem.quantity oi) ois /\
    subtotal_cents st' = subtotal_cents st + lines_total ois /\
    stock_updates st' = (stock_updates st ++ cart_updates items)%list /\
    Forall (fun u => exists s, stock_qty_of db u.1 = Some s /\ 1 <= u.2 <= s)
      (cart_updates items).
Proof.
  induction items as [| item rest IH]; intros st st'; cbn.
  - intros [= <-]. exists []. rewrite !app_nil_r. cbn.
    split; [done |]. split; [constructor |]. split; [constructor |].
    split; [lia |]. split; [done | constructor].
  - destruct (cart_line db st item) as [st1 |] eqn:Hline; cbn; [| discriminate].
    intros Hrest.
    apply cart_line_ok in Hline
      as (pid & prod & n & s & Hid & Hfind & _ & Hstock & Hq & Hn & Hn0 & ->).
    destruct (IH _ _ Hrest) as (ois & Hois & Hpr & Hpos & Hsub & Hupd & Hst).
    cbn in Hois, Hsub, Hupd.
    exists (OrderItem.mk pid (default "Product" (Product.title prod)) n
              (CartItem.quantity item) (first_image prod) :: ois).
    rewrite Hid. cbn.
    split; [by rewrite Hois, <- app_assoc |].
    split; [constructor; [exists pid, prod; cbn; auto | exact Hpr] |].
    split; [constructor; [cbn; lia | exact Hpos] |].
    split; [rewrite Hsub; unfold lines_total; lia |].
    split; [by rewrite Hupd, <- app_assoc |].
    constructor; [| exact Hst]. exists s. cbn. unfold stock_qty_of.
    rewrite Hfind, Hstock. auto.
Qed.

Lemma lines_total_nonneg (ois : list OrderItem.t) :
  Forall (fun oi => 0 <= OrderItem.unit_amount oi /\ 1 <= OrderItem.quantity oi) ois ->
  0 <= lines_total ois.
Proof.
  unfold lines_total. induction 1 as [| oi ois [Hu Hq] _ IH]; cbn; [lia | nia].
Qed.

(** ** The stock application pass *)

Lemma stock_update_ok (pid : ObjectId) (q s : Z) (db : Database.t) (p : Product.t) :
  Database.find_one db pid = Some p ->
  Product.stock_qty p = Some (Some s) ->
  stock_update (pid, q) db =
    (Ok tt, Database.mk (<[pid := after_update q s p]> (Database.product db))
              (Database.order db)).
Proof.
  unfold stock_update, Database.update_one, Database.find_one, after_update.
  intros -> ->. cbn. rewrite lookup_insert_eq. cbn.
  rewrite Z.add_opp_r.
  destruct (s - q <=? 0); [| reflexivity].
  by rewrite insert_insert_eq.
Qed.

Lemma stock_qty_of_Some (db : Database.t) (pid : ObjectId) (s : Z) :
  stock_qty_of db pid = Some s <->
  exists p, Database.find_one db pid = Some p /\ Product.stock_qty p = Some (Some s).
Proof.
  unfold stock_qty_of. split.
  - destruct (Database.find_one db pid) as [p |]; [| discriminate].
    destruct (Product.stock_qty p) as [[s' |] |] eqn:Hst; intros [=]; subst; eauto.
  - intros (p & -> & ->). reflexivity.
Qed.

Lemma stock_qty_after_update (q s : Z) (p : Product.t) :
  Product.stock_qty (after_update q s p) = Some (Some (s - q)).
Proof. unfold after_update. by destruct (s - q <=? 0). Qed.

Lemma stock_update_stock (pid : ObjectId) (q s : Z) (db : Database.t) :
  stock_qty_of db pid = Some s ->
  exists db',
    stock_update (pid, q) db = (Ok tt, db') /\
    Database.order db' = Database.order db /\
    (forall pid', stock_qty_of db' pid' =
                  if decide (pid = pid') then Some (s - q) else stock_qty_of db pid') /\
    (forall pid', pid <> pid' ->
                  Database.find_one db' pid' = Database.find_one db pid').
Proof.
  intros (p & Hfind & Hst)%stock_qty_of_Some.
  eexists. split; [by apply stock_update_ok |]. split; [reflexivity |].
  split.
  - intros pid'. unfold stock_qty_of, Database.find_one. cbn.
    rewrite lookup_insert. destruct (decide (pid = pid')); [| reflexivity].
    by rewrite stock_qty_after_update.
  - intros pid' Hne. unfold Database.find_one. cbn. by rewrite lookup_insert_ne.
Qed.

Lemma for_stock_updates_ok (us : list (ObjectId * Z)) :
  forall db,
    Forall (fun u => is_Some (stock_qty_of db u.1)) us ->
    exists db',
      for_stock_updates us db = (Ok tt, db') /\
      Database.order db' = Database.order db /\
      (forall pid, stock_qty_of db' pid =
                   (fun s => s - demand pid us) <$> stock_qty_of db pid) /\
      (forall pid, pid ∉ us.*1 ->
                   Database.find_one db' pid = Database.find_one db pid).
Proof.
  induction us as [| [pid q] rest IH]; intros db Hall.
  - exists db. cbn. split; [done |]. split; [done |]. split; [| done].
    intros pid. destruct (stock_qty_of db pid); cbn; [f_equal; lia | done].
  - apply Forall_cons in Hall as [[s Hs] Hrest]. cbn in Hs.
    destruct (stock_update_stock pid q s db Hs) as (db1 & Hstep & Hord1 & Hst1 & Hoth1).
    destruct (IH db1) as (db' & Hloop & Hord & Hst & Hoth).
    { eapply Forall_impl; [exact Hrest |]. intros [pid' q'] Hsome. cbn in *.
      rewrite Hst1. by destruct (decide (pid = pid')). }
    exists db'. cbn [for_stock_updates]. rewrite Hstep.
    split; [exact Hloop |]. split; [congruence |]. split.
    + intros pid'. rewrite Hst, Hst1. cbn [demand foldr fst snd].
      fold (demand pid' rest).
      destruct (decide (pid = pid')) as [<- | Hne].
      * rewrite Hs. cbn. f_equal. lia.
      * reflexivity.
    + intros pid' Hnotin. cbn in Hnotin.
      apply not_elem_of_cons in Hnotin as [Hne Hnotin].
      rewrite Hoth by exact Hnotin. apply Hoth1. congruence.
Qed.

(** ** The endpoint as a whole *)

(** What [create_checkout] does, by the outcome of the validation pass: a
    raise there (or an empty cart) leaves the database as it was; a completed
    pass always leads to the response, with the order appended and the stock
    updates applied. *)
Lemma create_checkout_cases (req : CheckoutRequest.t) (db : Database.t) :
  (CheckoutRequest.items req = [] /\
   create_checkout req db = (Raise EmptyCart, db)) \/
  (CheckoutRequest.items req <> [] /\
   exists e, for_items db (CheckoutRequest.items req) empty_cart_state = Raise e /\
             create_checkout req db = (Raise e, db)) \/
  (CheckoutRequest.items req <> [] /\
   exists st db',
     for_items db (CheckoutRequest.items req) empty_cart_state = Ok st /\
     let order := Order.mk (order_items st) "usd" (subtotal_cents st) "pending" None in
     create_checkout req db =
       (Ok (CheckoutResponse.mk (length (Database.order db)) "confirmed"
              (subtotal_cents st) "usd"), db') /\
     for_stock_updates (stock_updates st)
       (Database.mk (Database.product db) (Database.order db ++ [order])) = (Ok tt, db') /\
     Database.order db' = (Database.order db ++ [order])%list).
Proof.
  unfold create_checkout, empty_cart_state.
  destruct (CheckoutRequest.items req) as [| item rest] eqn:Hitems; [left; done | right].
  rewrite <- Hitems.
  destruct (for_items db (CheckoutRequest.items req) (mk_cart_state [] 0 [])) as [st | e] eqn:Hfor.
  - right. split; [congruence |].
    destruct (for_items_ok _ _ _ _ Hfor) as (ois & Hois & _ & Hpos & Hsub & Hupd & Hst).
    cbn in Hois, Hsub, Hupd.
    pose proof (lines_total_nonneg ois Hpos) as Hnn.
    unfold Order.new. destruct (subtotal_cents st <? 0) eqn:Hneg; [lia |].
    unfold Database.create_document.
    set (order := Order.mk (order_items st) "usd" (subtotal_cents st) "pending" None).
    set (db1 := Database.mk (Database.product db) (Database.order db ++ [order])).
    destruct (for_stock_updates_ok (stock_updates st) db1) as (db' & Hloop & Hord & _).
    { rewrite Hupd. eapply Forall_impl; [exact Hst |].
      intros u (s & Hs & _). exists s. exact Hs. }
    exists st, db'. rewrite Hloop. auto.
  - left. split; [congruence |]. eauto.
Qed.

Lemma create_checkout_ok_inv (req : CheckoutRequest.t) (db db' : Database.t)
    (resp : CheckoutResponse.t) :
  create_checkout req db = (Ok resp, db') ->
  CheckoutRequest.items req <> [] /\
  exists st,
    for_items db (CheckoutRequest.items req) empty_cart_state = Ok st /\
    resp = CheckoutResponse.mk (length (Database.order db)) "confirmed"
             (subtotal_cents st) "usd" /\
    for_stock_updates (stock_updates st)
      (Database.mk (Database.product db)
         (Database.order db ++
            [Order.mk (order_items st) "usd" (subtotal_cents st) "pending" None]))
      = (Ok tt, db') /\
    Database.order db' =
      (Database.order db ++
         [Order.mk (order_items st) "usd" (subtotal_cents st) "pending" None])%list.
Proof.
  intros H.
  destruct (create_checkout_cases req db)
    as [[_ Hc] | [(_ & e & _ & Hc) | (Hne & st & db2 & Hfor & Hc & Hloop & Hord)]];
    try congruence.
  cbn zeta in Hc. rewrite Hc in H. injection H as <- <-.
  split; [exact Hne |]. exists st. auto.
Qed.

Lemma create_checkout_raise_unchanged (req : CheckoutRequest.t) (db db' : Database.t)
    (e : exn) :
  create_checkout req db = (Raise e, db') -> db' = db.
Proof.
  intros H.
  destruct (create_checkout_cases req db)
    as [[_ Hc] | [(_ & e' & _ & Hc) | (_ & st & db2 & _ & Hc & _)]];
    cbn zeta in Hc; congruence.
Qed.

Lemma for_items_raise_checkout (req : CheckoutRequest.t) (db : Database.t) (e : exn) :
  CheckoutRequest.items req <> [] ->
  for_items db (CheckoutRequest.items req) empty_cart_state = Raise e ->
  create_checkout req db = (Raise e, db).
Proof.
  intros Hne Hfor.
  destruct (create_checkout_cases req db)
    as [[Hc _] | [(_ & e' & Hfor' & Hc) | (_ & st & db2 & Hfor' & _)]];
    congruence.
Qed.

(** ** Properties of the checkout transaction *)



(** C2: if the cart is empty or any of its lines fails validation (malformed
    product id, product not found, insufficient stock), the checkout raises
    an error and returns the database exactly as it received it: no Order is
    persisted and no product document is changed. *)
Theorem failed_validation_changes_nothing (req : CheckoutRequest.t) (db : Database.t) :
  CheckoutRequest.items req = [] \/
  Exists (line_fails_validation db) (CheckoutRequest.items req) ->
  exists e, create_checkout req db = (Raise e, db).
Proof.
  intros H.
  destruct (create_checkout_cases req db)
    as [[_ Hc] | [(_ & e & _ & Hc) | (Hne & st & db' & Hfor & _)]]; eauto.
  destruct H as [Hnil | Hex]; [congruence |].
  destruct (for_items_raise_exists (line_fails_validation db) db
              (fun st0 item => cart_line_fails_validation db st0 item)
              _ empty_cart_state Hex) as [e He].
  congruence.
Qed.

Lemma failed_validation_changes_nothing_witness :
  exists e,
    create_checkout (cart_of [(scarf_id, 2); (bag_id, 11)]) catalog = (Raise e, catalog).
Proof.
  apply failed_validation_changes_nothing.
  right. apply Exists_cons_tl, Exists_cons_hd.
  right. exists 10. split; [reflexivity | reflexivity].
Defined.

(** C4: a cart that contains a line with quantity below 1 is not accepted:
    the checkout raises, and returns the database as it received it, so no
    Order is created and no stock is changed. (The [CartItem] model puts no
    bound on [quantity]; the line is refused when its [OrderItem], whose
    [quantity] is declared [ge=1], is built, unless an earlier check has
    already raised.) *)
Theorem quantity_below_one_rejected (req : CheckoutRequest.t) (db : Database.t) :
  Exists (fun item => CartItem.quantity item < 1) (CheckoutRequest.items req) ->
  exists e, create_checkout req db = (Raise e, db).
Proof.
  intros Hex.
  destruct (create_checkout_cases req db)
    as [[_ Hc] | [(_ & e & _ & Hc) | (Hne & st & db' & Hfor & _)]]; eauto.
  destruct (for_items_raise_exists (fun item => CartItem.quantity item < 1) db
              (fun st0 item => cart_line_quantity_below_1 db st0 item)
              _ empty_cart_state Hex) as [e He].
  congruence.
Qed.

Lemma quantity_below_one_rejected_witness :
  exists e,
    create_checkout (cart_of [(scarf_id, 1); (bag_id, 0)]) catalog = (Raise e, catalog).
Proof.
  apply quantity_below_one_rejected.
  apply Exists_cons_tl, Exists_cons_hd. reflexivity.
Defined.

(** C7: on every successful checkout the response reports status
    "confirmed", while the Order the call appends to the order collection
    carries the default status "pending"; the orders stored before the call
    are left as they were, and nothing the endpoint does afterwards writes to
    the order collection. *)
Theorem response_confirmed_order_pending
    (req : CheckoutRequest.t) (db db' : Database.t) (resp : CheckoutResponse.t) :
  create_checkout req db = (Ok resp, db') ->
  CheckoutResponse.status resp = "confirmed" /\
  exists order,
    Database.order db' = (Database.order db ++ [order])%list /\
    Order.status order = "pending".
Proof.
  intros (_ & st & _ & -> & _ & Hord)%create_checkout_ok_inv.
  split; [reflexivity |]. eexists. split; [exact Hord | reflexivity].
Qed.

Lemma response_confirmed_order_pending_witness :
  CheckoutResponse.status
    (CheckoutResponse.mk 0 "confirmed" 99995 "usd") = "confirmed" /\
  exists order,
    Database.order
      (Database.mk (<[scarf_id := after_update 5 5 scarf]> (Database.product catalog))
         [Order.mk
            [OrderItem.mk scarf_id "Silk Scarf" 19999 5
               (Some "https://img.example/scarf.png")]
            "usd" 99995 "pending" None])
    = (Database.order catalog ++ [order])%list /\
    Order.status order = "pending".
Proof.
  apply (response_confirmed_order_pending (cart_of [(scarf_id, 5)]) catalog).
  vm_compute. reflexivity.
Defined.

(** C5: for a product with integer stock [S] and [in_stock] true, a
    successful checkout of a single cart line asking for [Q <= S] leaves the
    product collection equal to the former one except for this product's
    document, in which [stock_qty] is [S - Q], [in_stock] is false when
    [S - Q = 0] and true otherwise, and every other field is as before. *)
Theorem single_line_checkout_stock
    (db db' : Database.t) (id_str : string) (pid : ObjectId) (p : Product.t)
    (S Q : Z) (resp : CheckoutResponse.t) :
  ObjectId_of_str id_str = Some pid ->
  Database.find_one db pid = Some p ->
  Product.stock_qty p = Some (Some S) ->
  Product.in_stock p = Some true ->
  Q <= S ->
  create_checkout (CheckoutRequest.mk [CartItem.mk id_str Q]) db = (Ok resp, db') ->
  Database.product db' =
    <[pid := Product.mk (Product.title p) (Product.description p) (Product.price p)
               (Product.category p) (Product.images p) (Product.sku p)
               (if S - Q =? 0 then Some false else Some true)
               (Some (Some (S - Q)))]> (Database.product db).
Proof.
  intros Hid Hfind Hstock Hflag HQS
    (_ & st & Hfor & _ & Hloop & _)%create_checkout_ok_inv.
  cbn in Hfor.
  destruct (cart_line db empty_cart_state (CartItem.mk id_str Q)) as [st1 |] eqn:Hline;
    [cbn in Hfor | discriminate].
  injection Hfor as ->.
  apply cart_line_ok in Hline
    as (pid' & prod & n & s & Hid' & Hfind' & _ & _ & Hq & _ & _ & ->).
  cbn in Hid', Hq.
  cbn [stock_updates empty_cart_state app for_stock_updates CartItem.quantity] in Hloop.
  assert (pid' = pid) as -> by congruence.
  erewrite stock_update_ok in Hloop; [| exact Hfind | exact Hstock].
  injection Hloop as <-. cbn.
  f_equal. unfold after_update.
  destruct p as [t d pr c im sk fl sq]. cbn in *. subst fl.
  destruct (Z.eqb_spec (S - Q) 0) as [-> | Hne]; [reflexivity |].
  destruct (Z.leb_spec (S - Q) 0); [lia | reflexivity].
Qed.

Lemma single_line_checkout_stock_witness :
  Database.product
    (create_checkout (CheckoutRequest.mk [CartItem.mk "64B7F0C2A1D3E4F5A6B7C8D9" 5])
       catalog).2 =
    <[scarf_id := Product.mk (Product.title scarf) (Product.description scarf)
                    (Product.price scarf) (Product.category scarf)
                    (Product.images scarf) (Product.sku scarf)
                    (if 5 - 5 =? 0 then Some false else Some true)
                    (Some (Some (5 - 5)))]> (Database.product catalog).
Proof.
  eapply (single_line_checkout_stock catalog _ "64B7F0C2A1D3E4F5A6B7C8D9" scarf_id scarf 5 5).
  - vm_compute. reflexivity.
  - vm_compute. reflexivity.
  - reflexivity.
  - reflexivity.
  - lia.
  - vm_compute. reflexivity.
Defined.

(** ** The errors of the endpoint *)




Lemma first_failing_line (db : Database.t) (pre post : list CartItem.t)
    (item : CartItem.t) (st : cart_state) (e : exn) :
  for_items db pre empty_cart_state = Ok st ->
  cart_line db st item = Raise e ->
  create_checkout (CheckoutRequest.mk (pre ++ item :: post)) db = (Raise e, db).
Proof.
  intros Hpre Hline. apply for_items_raise_checkout; cbn.
  - by destruct pre.
  - rewrite (for_items_app _ _ _ _ _ Hpre). cbn. by rewrite Hline.
Qed.



(** ** Unit amounts *)

(** The constants above are the doubles they are named after: the correctly
    rounded quotients 19999/100, 1/8 and 3/8. *)
Lemma f64_constants :
  SFdiv prec emax (float_of_int 19999) (float_of_int 100) = f64_199_99 /\
  SFdiv prec emax (float_of_int 1) (float_of_int 8) = f64_0_125 /\
  SFdiv prec emax (float_of_int 3) (float_of_int 8) = f64_0_375.
Proof. repeat split; vm_compute; reflexivity. Qed.

(** The hundredfold of 0.125 and of 0.375 are exactly 12.5 and 37.5: ties. *)
Lemma tie_examples :
  (exists v, float_exact (price_times_100 (priced f64_0_125)) = Some v /\ (v == 25 # 2)%Q) /\
  (exists v, float_exact (price_times_100 (priced f64_0_375)) = Some v /\ (v == 75 # 2)%Q).
Proof.
  split; (eexists; split; [vm_compute; reflexivity | vm_compute; reflexivity]).
Qed.

(** The product is the binary64 one: the double nearest to 0.005 lies above
    0.005, so its exact hundredfold is above one half, yet the float product
    is 0.5 and the unit amount is 0. *)
Lemma float_product_is_rounded :
  SFdiv prec emax (float_of_int 5) (float_of_int 1000) = f64_0_005 /\
  (exists v, float_exact f64_0_005 = Some v /\ (1 # 2 < v * inject_Z 100)%Q) /\
  (exists v, float_exact (price_times_100 (priced f64_0_005)) = Some v /\ (v == 1 # 2)%Q) /\
  unit_amount_of (priced f64_0_005) = Ok 0.
Proof.
  split; [vm_compute; reflexivity |].
  split; [eexists; split; [reflexivity | vm_compute; reflexivity] |].
  split; [eexists; split; [vm_compute; reflexivity | vm_compute; reflexivity] |].
  vm_compute. reflexivity.
Qed.

(** C8: the unit amount recorded for a cart line is [price * 100], the
    product taken in binary64, rounded to the nearest integer with a tie
    going to the even neighbour; a price of 199.99 gives 19999, and the ties
    12.5 and 37.5 give 12 and 38. *)
Theorem unit_amount_rounds_half_even
    (db : Database.t) (st st' : cart_state) (item : CartItem.t) :
  cart_line db st item = Ok st' ->
  (exists pid prod oi,
      ObjectId_of_str (CartItem.product_id item) = Some pid /\
      Database.find_one db pid = Some prod /\
      order_items st' = (order_items st ++ [oi])%list /\
      unit_amount_of prod = Ok (OrderItem.unit_amount oi) /\
      rounds_half_even (price_times_100 prod) (OrderItem.unit_amount oi)) /\
  unit_amount_of (priced f64_199_99) = Ok 19999 /\
  unit_amount_of (priced f64_0_125) = Ok 12 /\
  unit_amount_of (priced f64_0_375) = Ok 38.
Proof.
  intros (pid & prod & n & s & Hid & Hfind & _ & _ & _ & Hn & _ & ->)%cart_line_ok.
  split; [| repeat split; vm_compute; reflexivity].
  eexists pid, prod, _. cbn.
  split; [exact Hid |]. split; [exact Hfind |]. split; [reflexivity |]. cbn.
  split; [exact Hn |]. apply round_rounds_half_even. exact Hn.
Qed.

Lemma unit_amount_rounds_half_even_witness :
  (exists pid prod oi,
      ObjectId_of_str (CartItem.product_id (CartItem.mk scarf_id 5)) = Some pid /\
      Database.find_one catalog pid = Some prod /\
      order_items
        (mk_cart_state
           [OrderItem.mk scarf_id "Silk Scarf" 19999 5 (Some "https://img.example/scarf.png")]
           99995 [(scarf_id, 5)])
        = (order_items empty_cart_state ++ [oi])%list /\
      unit_amount_of prod = Ok (OrderItem.unit_amount oi) /\
      rounds_half_even (price_times_100 prod) (OrderItem.unit_amount oi)) /\
  unit_amount_of (priced f64_199_99) = Ok 19999 /\
  unit_amount_of (priced f64_0_125) = Ok 12 /\
  unit_amount_of (priced f64_0_375) = Ok 38.
Proof.
  apply (unit_amount_rounds_half_even catalog empty_cart_state _ (CartItem.mk scarf_id 5)).
  vm_compute. reflexivity.
Defined.

(** ** Repeated checkouts *)

Lemma demand_not_referenced (pid : ObjectId) (us : list (ObjectId * Z)) :
  pid ∉ us.*1 -> demand pid us = 0.
Proof.
  unfold demand. induction us as [| [pid' q] us IH]; cbn; [done |].
  intros [Hne Hnotin]%not_elem_of_cons.
  destruct (decide (pid' = pid)); [congruence | auto].
Qed.

Lemma demand_single_line (pid : ObjectId) (q : Z) (us : list (ObjectId * Z)) :
  NoDup us.*1 -> (pid, q) ∈ us -> demand pid us = q.
Proof.
  induction us as [| [pid' q'] us IH]; cbn.
  - intros _ Hin. by apply elem_of_nil in Hin.
  - intros [Hnotin Hnd]%NoDup_cons [Heq | Hin]%elem_of_cons.
    + injection Heq as <- <-. unfold demand; cbn.
      destruct (decide (pid = pid)); [| congruence].
      fold (demand pid us). rewrite demand_not_referenced by exact Hnotin. lia.
    + unfold demand; cbn. destruct (decide (pid' = pid)) as [-> | Hne].
      * exfalso. apply Hnotin. apply list_elem_of_fmap. by exists (pid, q).
      * by apply IH.
Qed.

Lemma checkout_stock_levels (req : CheckoutRequest.t) (db db' : Database.t)
    (resp : CheckoutResponse.t) :
  create_checkout req db = (Ok resp, db') ->
  Forall (fun u => exists s, stock_qty_of db u.1 = Some s /\ 1 <= u.2 <= s)
    (cart_updates (CheckoutRequest.items req)) /\
  Forall (fun item => is_Some (ObjectId_of_str (CartItem.product_id item)))
    (CheckoutRequest.items req) /\
  (forall pid,
      stock_qty_of db' pid =
        (fun s => s - demand pid (cart_updates (CheckoutRequest.items req)))
          <$> stock_qty_of db pid) /\
  (forall pid,
      pid ∉ (cart_updates (CheckoutRequest.items req)).*1 ->
      Database.find_one db' pid = Database.find_one db pid).
Proof.
  intros (_ & st & Hfor & _ & Hloop & _)%create_checkout_ok_inv.
  destruct (for_items_ok _ _ _ _ Hfor) as (ois & _ & Hpr & _ & _ & Hupd & Hst).
  cbn in Hupd. rewrite Hupd in Hloop.
  split; [exact Hst |]. split.
  { clear -Hpr. induction Hpr as [| item oi items ois (pid & _ & Hid & _) _ IH];
      constructor; [by rewrite Hid | exact IH]. }
  set (db1 := Database.mk _ _) in Hloop.
  destruct (for_stock_updates_ok (cart_updates (CheckoutRequest.items req)) db1)
    as (db2 & Hloop2 & _ & Hstock & Hother).
  { eapply Forall_impl; [exact Hst |]. intros u (s & Hs & _). exists s. exact Hs. }
  assert (db2 = db') as -> by congruence.
  split; [exact Hstock | exact Hother].
Qed.

(** C9: checkout is not idempotent. When the same cart checks out
    successfully twice in a row, the two responses carry different order
    ids, the order collection has grown by two documents, and for every
    product a cart line refers to, the stock has gone down by the cart's
    demand for that product after the first call and by twice that demand
    after the second; the demand is the line's quantity when no two lines
    of the cart refer to the same product. *)
Theorem checkout_twice_decrements_twice
    (req : CheckoutRequest.t) (db db1 db2 : Database.t) (r1 r2 : CheckoutResponse.t) :
  create_checkout req db = (Ok r1, db1) ->
  create_checkout req db1 = (Ok r2, db2) ->
  CheckoutResponse.order_id r1 <> CheckoutResponse.order_id r2 /\
  (exists o1 o2, Database.order db2 = (Database.order db ++ [o1; o2])%list) /\
  forall item, item ∈ CheckoutRequest.items req ->
    exists pid s,
      ObjectId_of_str (CartItem.product_id item) = Some pid /\
      stock_qty_of db pid = Some s /\
      let d := demand pid (cart_updates (CheckoutRequest.items req)) in
      stock_qty_of db1 pid = Some (s - d) /\
      stock_qty_of db2 pid = Some (s - 2 * d) /\
      (NoDup (cart_updates (CheckoutRequest.items req)).*1 -> d = CartItem.quantity item).
Proof.
  intros H1 H2.
  destruct (checkout_stock_levels _ _ _ _ H1) as (Hst & Hids & Hlev1 & _).
  destruct (checkout_stock_levels _ _ _ _ H2) as (_ & _ & Hlev2 & _).
  apply create_checkout_ok_inv in H1 as (_ & st1 & _ & -> & _ & Hord1).
  apply create_checkout_ok_inv in H2 as (_ & st2 & _ & -> & _ & Hord2).
  cbn [CheckoutResponse.order_id].
  split; [rewrite Hord1, length_app; cbn; lia |].
  split; [eexists _, _; rewrite Hord2, Hord1, <- app_assoc; reflexivity |].
  intros item Hin.
  rewrite Forall_forall in Hids. destruct (Hids item Hin) as [pid Hid].
  assert (Hu : (pid, CartItem.quantity item) ∈ cart_updates (CheckoutRequest.items req)).
  { apply list_elem_of_omap. exists item. by rewrite Hid. }
  rewrite Forall_forall in Hst. destruct (Hst _ Hu) as (s & Hs & _). cbn in Hs.
  exists pid, s. split; [exact Hid |]. split; [exact Hs |]. cbn zeta.
  assert (Hs1 : stock_qty_of db1 pid =
                Some (s - demand pid (cart_updates (CheckoutRequest.items req))))
    by (rewrite Hlev1, Hs; reflexivity).
  split; [exact Hs1 |].
  split; [rewrite Hlev2, Hs1; cbn; f_equal; lia |].
  intros Hnd. by apply demand_single_line.
Qed.

Lemma checkout_twice_decrements_twice_witness :
  exists r1 db1 r2 db2 pid s,
    create_checkout (cart_of [(scarf_id, 2); (bag_id, 3)]) catalog = (Ok r1, db1) /\
    create_checkout (cart_of [(scarf_id, 2); (bag_id, 3)]) db1 = (Ok r2, db2) /\
    CheckoutResponse.order_id r1 <> CheckoutResponse.order_id r2 /\
    ObjectId_of_str scarf_id = Some pid /\
    stock_qty_of catalog pid = Some s /\
    stock_qty_of db2 pid = Some (s - 2 * 2).
Proof.
  set (req := cart_of [(scarf_id, 2); (bag_id, 3)]).
  set (o1 := create_checkout req catalog).
  set (o2 := create_checkout req o1.2).
  assert (H1 : create_checkout req catalog
               = (Ok (CheckoutResponse.mk 0 "confirmed" 40112 "usd"), o1.2))
    by (vm_compute; reflexivity).
  assert (H2 : create_checkout req o1.2
               = (Ok (CheckoutResponse.mk 1 "confirmed" 40112 "usd"), o2.2))
    by (vm_compute; reflexivity).
  destruct (checkout_twice_decrements_twice req catalog o1.2 o2.2 _ _ H1 H2)
    as (Hneq & _ & Hall).
  destruct (Hall (CartItem.mk scarf_id 2)) as (pid & s & Hid & Hs & _ & Hs2 & Hd).
  { apply elem_of_cons. by left. }
  exists (CheckoutResponse.mk 0 "confirmed" 40112 "usd"), o1.2,
         (CheckoutResponse.mk 1 "confirmed" 40112 "usd"), o2.2, pid, s.
  split; [exact H1 |]. split; [exact H2 |]. split; [exact Hneq |].
  split; [exact Hid |]. split; [exact Hs |].
  rewrite Hs2. f_equal. f_equal. f_equal. apply Hd.
  refine (@bool_decide_unpack _ (NoDup_dec _) _). vm_compute. exact I.
Defined.

(** ** Documents with missing fields *)



(** ** Stock levels *)

Lemma stock_update_other (u : ObjectId * Z) (db db' : Database.t)
    (r : result unit) (pid : ObjectId) :
  stock_update u db = (r, db') -> u.1 <> pid ->
  Database.find_one db' pid = Database.find_one db pid.
Proof.
  destruct u as [p q]. cbn [fst].
  unfold stock_update, Database.update_one, Database.find_one.
  intros H Hne.
  destruct (Database.product db !! p) as [doc |] eqn:Hdoc; cbn in H.
  - destruct (Product.stock_qty doc) as [[s |] |]; cbn in H;
      rewrite ?lookup_insert_eq in H; cbn in H;
      repeat match type of H with
             | context [if ?c then _ else _] => destruct c
             end;
      injection H as _ <-; cbn; rewrite ?lookup_insert_ne by exact Hne; reflexivity.
  - rewrite Hdoc in H. by injection H as _ <-.
Qed.

Lemma stock_update_flag (p : ObjectId) (q s : Z) (db db' : Database.t) :
  stock_update (p, q) db = (Ok tt, db') ->
  stock_qty_of db' p = Some s -> s <= 0 -> in_stock_of db' p = Some false.
Proof.
  unfold stock_update, Database.update_one, stock_qty_of, in_stock_of,
    Database.find_one.
  intros H.
  destruct (Database.product db !! p) as [doc |] eqn:Hdoc; cbn in H.
  - destruct (Product.stock_qty doc) as [[s0 |] |]; cbn in H;
      rewrite ?lookup_insert_eq in H; cbn in H; try discriminate.
    + destruct (Z.leb_spec (s0 + - q) 0); injection H as <-; cbn;
        rewrite ?lookup_insert_eq; cbn; intros [= <-] ?; [reflexivity | lia].
    + destruct (Z.leb_spec (- q) 0); injection H as <-; cbn;
        rewrite ?lookup_insert_eq; cbn; intros [= <-] ?; [reflexivity | lia].
  - rewrite Hdoc in H. injection H as <-. by rewrite Hdoc.
Qed.

Lemma for_stock_updates_other (us : list (ObjectId * Z)) (pid : ObjectId) :
  forall db db' r,
    for_stock_updates us db = (r, db') -> pid ∉ us.*1 ->
    Database.find_one db' pid = Database.find_one db pid.
Proof.
  induction us as [| u rest IH]; intros db db' r; cbn.
  - by intros [= _ <-].
  - intros H [Hne Hnotin]%not_elem_of_cons.
    destruct (stock_update u db) as [[[] | e] db1] eqn:Hstep.
    + rewrite (IH _ _ _ H Hnotin). eapply stock_update_other; [exact Hstep | congruence].
    + injection H as _ <-. eapply stock_update_other; [exact Hstep | congruence].
Qed.

Lemma for_stock_updates_flags (us : list (ObjectId * Z)) :
  forall db db',
    for_stock_updates us db = (Ok tt, db') ->
    forall pid s, pid ∈ us.*1 ->
      stock_qty_of db' pid = Some s -> s <= 0 -> in_stock_of db' pid = Some false.
Proof.
  induction us as [| [p q] rest IH]; intros db db'; cbn [for_stock_updates].
  - intros _ pid s Hin. by apply elem_of_nil in Hin.
  - destruct (stock_update (p, q) db) as [[[] | e] db1] eqn:Hstep; [| discriminate].
    intros Hloop pid s Hin Hs Hle.
    destruct (decide (pid ∈ rest.*1)) as [Hrest | Hnot]; [by eapply IH |].
    cbn in Hin. apply elem_of_cons in Hin as [-> | Hin]; [| done].
    pose proof (for_stock_updates_other _ _ _ _ _ Hloop Hnot) as Hsame.
    unfold stock_qty_of, in_stock_of in *. rewrite Hsame in *.
    by eapply (stock_update_flag p q s db db1).
Qed.

(** After a successful checkout, a product the cart refers to whose stock is
    not positive is flagged out of stock. *)
Lemma checkout_flags_depleted (req : CheckoutRequest.t) (db db' : Database.t)
    (resp : CheckoutResponse.t) (pid : ObjectId) (s : Z) :
  create_checkout req db = (Ok resp, db') ->
  pid ∈ (cart_updates (CheckoutRequest.items req)).*1 ->
  stock_qty_of db' pid = Some s -> s <= 0 -> in_stock_of db' pid = Some false.
Proof.
  intros (_ & st & Hfor & _ & Hloop & _)%create_checkout_ok_inv.
  destruct (for_items_ok _ _ _ _ Hfor) as (_ & _ & _ & _ & _ & Hupd & _).
  cbn in Hupd. rewrite Hupd in Hloop.
  by eapply for_stock_updates_flags.
Qed.

(** When no two lines of the cart refer to the same product, a successful
    checkout keeps every stock non-negative. *)
Lemma distinct_lines_keep_stock_nonneg (req : CheckoutRequest.t) (db db' : Database.t)
    (resp : CheckoutResponse.t) :
  create_checkout req db = (Ok resp, db') ->
  NoDup (cart_updates (CheckoutRequest.items req)).*1 ->
  (forall pid s, stock_qty_of db pid = Some s -> 0 <= s) ->
  forall pid s, stock_qty_of db' pid = Some s -> 0 <= s.
Proof.
  intros (Hst & _ & Hlev & _)%checkout_stock_levels Hnd Hinv pid s.
  rewrite Hlev.
  destruct (stock_qty_of db pid) as [s0 |] eqn:Hs0; [cbn | discriminate].
  intros [= <-]. specialize (Hinv _ _ Hs0).
  destruct (decide (pid ∈ (cart_updates (CheckoutRequest.items req)).*1)) as [Hin | Hnot].
  - apply list_elem_of_fmap in Hin as ([pid' q] & -> & Hin). cbn in *.
    rewrite (demand_single_line _ _ _ Hnd Hin).
    rewrite Forall_forall in Hst. destruct (Hst _ Hin) as (s1 & Hs1 & Hq).
    cbn in Hs1, Hq. assert (s1 = s0) by congruence. lia.
  - rewrite (demand_not_referenced _ _ Hnot). lia.
Qed.

(** C3: the stock of a product does not stay non-negative. The validation
    pass compares every line with the stock stored before the call, so two
    lines for the same product can each pass and together take more than
    there is: from a catalog that holds 5 scarves, the cart of two lines of 3
    scarves is accepted and leaves [stock_qty = -1] (flagged out of stock). *)
Theorem duplicate_lines_oversell :
  stock_qty_of catalog scarf_id = Some 5 /\
  in_stock_of catalog scarf_id = Some true /\
  exists resp db',
    create_checkout (cart_of [(scarf_id, 3); (scarf_id, 3)]) catalog = (Ok resp, db') /\
    stock_qty_of db' scarf_id = Some (-1) /\
    in_stock_of db' scarf_id = Some false.
Proof.
  split; [vm_compute; reflexivity |]. split; [vm_compute; reflexivity |].
  exists (CheckoutResponse.mk 0 "confirmed" 119994 "usd"),
         (create_checkout (cart_of [(scarf_id, 3); (scarf_id, 3)]) catalog).2.
  split; [vm_compute; reflexivity |]. split; vm_compute; reflexivity.
Qed.

(** ** More on the validation pass *)

Lemma cart_line_complete (db : Database.t) (st : cart_state) (item : CartItem.t)
    (pid : ObjectId) (prod : Product.t) (n s : Z) :
  ObjectId_of_str (CartItem.product_id item) = Some pid ->
  Database.find_one db pid = Some prod ->
  Product.in_stock prod <> Some false ->
  Product.stock_qty prod = Some (Some s) ->
  1 <= CartItem.quantity item <= s ->
  unit_amount_of prod = Ok n -> 0 <= n ->
  cart_line db st item =
    Ok (mk_cart_state
          (order_items st ++
             [OrderItem.mk pid (default "Product" (Product.title prod)) n
                (CartItem.quantity item) (first_image prod)])
          (subtotal_cents st + n * CartItem.quantity item)
          (stock_updates st ++ [(pid, CartItem.quantity item)])).
Proof.
  intros Hid Hfind Hflag Hstock Hq Hn Hn0.
  unfold cart_line, ensure_object_id. rewrite Hid. cbn. rewrite Hfind.
  unfold lacks_stock. rewrite Hstock. cbn.
  assert (Hneg : negb (default true (Product.in_stock prod)) = false)
    by (destruct (Product.in_stock prod) as [[] |]; cbn; congruence).
  rewrite Hneg.
  destruct (Z.ltb_spec s (CartItem.quantity item)); [lia |]. cbn.
  rewrite Hn. cbn. unfold OrderItem.new.
  destruct (Z.ltb_spec n 0); [lia |].
  destruct (Z.ltb_spec (CartItem.quantity item) 1); [lia |].
  reflexivity.
Qed.

Lemma cart_line_any_state (db : Database.t) (st st' st2 : cart_state) (item : CartItem.t) :
  cart_line db st item = Ok st' ->
  exists st2',
    cart_line db st2 item = Ok st2' /\
    subtotal_cents st2' - subtotal_cents st2 = subtotal_cents st' - subtotal_cents st /\
    subtotal_cents st' - subtotal_cents st = line_amount db item.
Proof.
  intros (pid & prod & n & s & Hid & Hfind & Hflag & Hstock & Hq & Hn & Hn0 & ->)%cart_line_ok.
  eexists. split; [by eapply cart_line_complete |]. cbn.
  unfold line_amount. rewrite Hid, Hfind, Hn. lia.
Qed.

Lemma for_items_app_inv (db : Database.t) (l1 l2 : list CartItem.t) :
  forall st st', for_items db (l1 ++ l2) st = Ok st' ->
  exists st1, for_items db l1 st = Ok st1 /\ for_items db l2 st1 = Ok st'.
Proof.
  induction l1 as [| item l1 IH]; intros st st'; cbn.
  - eauto.
  - destruct (cart_line db st item) as [st1 |]; cbn; [apply IH | discriminate].
Qed.

Lemma for_items_lines (db : Database.t) (items : list CartItem.t) :
  forall st,
    (exists st', for_items db items st = Ok st') <->
    Forall (fun item => exists st1, cart_line db empty_cart_state item = Ok st1) items.
Proof.
  induction items as [| item rest IH]; intros st; cbn.
  - split; [constructor | eauto].
  - split.
    + intros [st' H].
      destruct (cart_line db st item) as [st1 |] eqn:Hline; cbn in H; [| discriminate].
      constructor.
      * destruct (cart_line_any_state _ _ _ empty_cart_state _ Hline) as (st2 & H2 & _).
        eauto.
      * apply (IH st1). eauto.
    + intros [[st1 H1] Hrest]%Forall_cons.
      destruct (cart_line_any_state _ _ _ st _ H1) as (st2 & H2 & _).
      rewrite H2. cbn. by apply IH.
Qed.

Lemma for_items_total (db : Database.t) (items : list CartItem.t) :
  forall st st', for_items db items st = Ok st' ->
  subtotal_cents st' = subtotal_cents st + cart_total db items.
Proof.
  unfold cart_total.
  induction items as [| item rest IH]; intros st st'; cbn.
  - intros [= <-]. lia.
  - destruct (cart_line db st item) as [st1 |] eqn:Hline; cbn; [| discriminate].
    intros Hrest. apply IH in Hrest.
    destruct (cart_line_any_state _ _ _ st _ Hline) as (_ & _ & _ & Hamt).
    lia.
Qed.

Lemma line_accepted_cart_line (db : Database.t) (item : CartItem.t) :
  line_accepted db item <-> exists st1, cart_line db empty_cart_state item = Ok st1.
Proof.
  unfold line_accepted. split.
  - intros (resp & db' & (_ & st & Hfor & _)%create_checkout_ok_inv).
    cbn in Hfor.
    destruct (cart_line db empty_cart_state item) as [st1 |]; [eauto | discriminate].
  - intros [st1 H1].
    destruct (create_checkout_cases (CheckoutRequest.mk [item]) db)
      as [[Hnil _] | [(_ & e & Hfor & _) | (_ & st & db' & _ & Hc & _)]].
    + discriminate.
    + cbn in Hfor. rewrite H1 in Hfor. discriminate.
    + eauto.
Qed.



(** X2: a cart is accepted exactly when it is not empty and each of its
    lines would be accepted as a cart of its own: every line is checked
    against the stock stored before the call, whatever the other lines take. *)
Theorem cart_accepted_iff_each_line_is
    (req : CheckoutRequest.t) (db : Database.t) :
  (exists resp db', create_checkout req db = (Ok resp, db')) <->
  CheckoutRequest.items req <> [] /\
  Forall (line_accepted db) (CheckoutRequest.items req).
Proof.
  split.
  - intros (resp & db' & (Hne & st & Hfor & _)%create_checkout_ok_inv).
    split; [exact Hne |].
    eapply Forall_impl; [apply (for_items_lines db _ empty_cart_state); eauto |].
    intros item. apply line_accepted_cart_line.
  - intros [Hne Hall].
    assert (Hfor : exists st, for_items db (CheckoutRequest.items req) empty_cart_state = Ok st).
    { apply for_items_lines. eapply Forall_impl; [exact Hall |].
      intros item. apply line_accepted_cart_line. }
    destruct Hfor as [st Hfor].
    destruct (create_checkout_cases req db)
      as [[Hnil _] | [(_ & e & Hfor' & _) | (_ & st' & db' & _ & Hc & _)]];
      [congruence | congruence | eauto].
Qed.

(** X3: what an accepted cart guarantees about the store it ran against:
    every line's id was well formed and named a stored product that was not
    flagged out of stock, whose [stock_qty] was an integer at least the
    line's quantity, that quantity being at least 1, and whose price gave a
    non-negative unit amount. *)
Theorem accepted_lines_were_available
    (req : CheckoutRequest.t) (db db' : Database.t) (resp : CheckoutResponse.t) :
  create_checkout req db = (Ok resp, db') ->
  Forall (fun item =>
            exists pid prod s n,
              ObjectId_of_str (CartItem.product_id item) = Some pid /\
              Database.find_one db pid = Some prod /\
              Product.in_stock prod <> Some false /\
              Product.stock_qty prod = Some (Some s) /\
              1 <= CartItem.quantity item <= s /\
              unit_amount_of prod = Ok n /\ 0 <= n)
    (CheckoutRequest.items req).
Proof.
  intros (_ & st & Hfor & _)%create_checkout_ok_inv.
  eapply Forall_impl; [apply (for_items_lines db _ empty_cart_state); eauto |].
  intros item [st1 H1]. cbn in H1.
  apply cart_line_ok in H1 as (pid & prod & n & s & ? & ? & ? & ? & ? & ? & ? & _).
  exists pid, prod, s, n. done.
Qed.

Lemma accepted_lines_were_available_witness :
  Forall (fun item =>
            exists pid prod s n,
              ObjectId_of_str (CartItem.product_id item) = Some pid /\
              Database.find_one catalog pid = Some prod /\
              Product.in_stock prod <> Some false /\
              Product.stock_qty prod = Some (Some s) /\
              1 <= CartItem.quantity item <= s /\
              unit_amount_of prod = Ok n /\ 0 <= n)
    (CheckoutRequest.items (cart_of [(scarf_id, 2); (bag_id, 3)])).
Proof.
  eapply (accepted_lines_were_available (cart_of [(scarf_id, 2); (bag_id, 3)]) catalog).
  vm_compute. reflexivity.
Defined.

(** ** More on the stock application pass *)

Lemma demand_nonneg (pid : ObjectId) (us : list (ObjectId * Z)) :
  Forall (fun u => 1 <= u.2) us -> 0 <= demand pid us.
Proof.
  unfold demand. induction 1 as [| [p q] us Hq _ IH]; cbn; [lia |].
  destruct (decide (p = pid)); cbn in *; lia.
Qed.

Lemma demand_referenced (pid : ObjectId) (us : list (ObjectId * Z)) :
  Forall (fun u => 1 <= u.2) us -> pid ∈ us.*1 -> 1 <= demand pid us.
Proof.
  intros Hall. induction Hall as [| [p q] us Hq Hall IH]; cbn.
  - intros Hin. by apply elem_of_nil in Hin.
  - intros Hin. unfold demand; cbn. fold (demand pid us).
    pose proof (demand_nonneg pid us Hall).
    destruct (decide (p = pid)) as [-> | Hne]; cbn in *; [lia |].
    apply elem_of_cons in Hin as [-> | Hin]; [done | auto].
Qed.

Lemma after_update_twice (q1 q2 s : Z) (p : Product.t) :
  1 <= q2 ->
  after_update q2 (s - q1) (after_update q1 s p) = after_update (q1 + q2) s p.
Proof.
  intros Hq2. unfold after_update.
  replace (s - (q1 + q2)) with (s - q1 - q2) by lia.
  destruct (Z.leb_spec (s - q1) 0); destruct (Z.leb_spec (s - q1 - q2) 0);
    try lia; reflexivity.
Qed.

Lemma for_stock_updates_effect (us : list (ObjectId * Z)) :
  Forall (fun u => 1 <= u.2) us ->
  forall db db' pid p s,
    for_stock_updates us db = (Ok tt, db') ->
    Database.find_one db pid = Some p ->
    Product.stock_qty p = Some (Some s) ->
    pid ∈ us.*1 ->
    Database.find_one db' pid = Some (after_update (demand pid us) s p).
Proof.
  induction 1 as [| [p0 q0] rest Hq0 Hrest IH]; intros db db' pid p s Hloop Hfind Hstock Hin.
  - by apply elem_of_nil in Hin.
  - cbn [for_stock_updates] in Hloop. cbn in Hq0.
    unfold demand; cbn [foldr fst snd]. fold (demand pid rest).
    destruct (decide (p0 = pid)) as [-> | Hne].
    + rewrite (stock_update_ok pid q0 s db p Hfind Hstock) in Hloop.
      set (db1 := Database.mk _ _) in Hloop.
      assert (Hfind1 : Database.find_one db1 pid = Some (after_update q0 s p))
        by (unfold Database.find_one; cbn; apply lookup_insert_eq).
      destruct (decide (pid ∈ rest.*1)) as [Hin' | Hnot].
      * rewrite (IH db1 db' pid _ (s - q0) Hloop Hfind1 (stock_qty_after_update _ _ _) Hin').
        f_equal. apply after_update_twice. by apply demand_referenced.
      * rewrite (for_stock_updates_other _ _ _ _ _ Hloop Hnot), Hfind1.
        rewrite (demand_not_referenced _ _ Hnot). by rewrite Z.add_0_r.
    + destruct (stock_update (p0, q0) db) as [[[] | e] db1] eqn:Hstep; [| discriminate].
      cbn in Hin. apply elem_of_cons in Hin as [-> | Hin]; [done |].
      eapply IH; [exact Hloop | | exact Hstock | exact Hin].
      rewrite <- Hfind. eapply stock_update_other; [exact Hstep | exact Hne].
Qed.

Lemma same_listing_refl (p : Product.t) : same_listing p p.
Proof. by repeat split. Qed.

Lemma same_listing_trans (p1 p2 p3 : Product.t) :
  same_listing p1 p2 -> same_listing p2 p3 -> same_listing p1 p3.
Proof.
  unfold same_listing. intros (? & ? & ? & ? & ? & ?) (? & ? & ? & ? & ? & ?).
  repeat split; congruence.
Qed.

Lemma same_listing_after_update (q s : Z) (p : Product.t) :
  same_listing p (after_update q s p).
Proof. unfold after_update. destruct (s - q <=? 0); by repeat split. Qed.

Lemma stock_update_listing (u : ObjectId * Z) (db db' : Database.t) (r : result unit)
    (pid : ObjectId) :
  stock_update u db = (r, db') ->
  match Database.find_one db pid, Database.find_one db' pid with
  | Some p, Some p' => same_listing p p'
  | None, None => True
  | _, _ => False
  end.
Proof.
  destruct u as [p0 q]. intros H.
  destruct (decide (p0 = pid)) as [-> | Hne].
  2: { rewrite (stock_update_other _ _ _ _ _ H Hne).
       destruct (Database.find_one db pid); [apply same_listing_refl | done]. }
  revert H.
  unfold stock_update, Database.update_one, Database.find_one.
  destruct (Database.product db !! pid) as [doc |] eqn:Hdoc; cbn.
  - destruct (Product.stock_qty doc) as [[s |] |]; cbn;
      rewrite ?lookup_insert_eq; cbn;
      repeat match goal with
             | |- context [if ?c then _ else _] => destruct c
             end;
      intros [= _ <-]; cbn; rewrite ?lookup_insert_eq, ?Hdoc;
      try apply same_listing_refl; by repeat split.
  - rewrite Hdoc. intros [= _ <-]. by rewrite Hdoc.
Qed.

Lemma for_stock_updates_listing (us : list (ObjectId * Z)) (pid : ObjectId) :
  forall db db' r,
    for_stock_updates us db = (r, db') ->
    match Database.find_one db pid, Database.find_one db' pid with
    | Some p, Some p' => same_listing p p'
    | None, None => True
    | _, _ => False
    end.
Proof.
  induction us as [| u rest IH]; intros db db' r; cbn.
  - intros [= _ <-]. destruct (Database.find_one db pid); [apply same_listing_refl | done].
  - destruct (stock_update u db) as [[[] | e] db1] eqn:Hstep.
    + intros Hloop. specialize (IH _ _ _ Hloop).
      pose proof (stock_update_listing _ _ _ _ pid Hstep) as H1.
      destruct (Database.find_one db pid), (Database.find_one db1 pid),
        (Database.find_one db' pid); try done.
      by eapply same_listing_trans.
    + intros [= _ <-]. by eapply stock_update_listing.
Qed.

Lemma checkout_effect (req : CheckoutRequest.t) (db db' : Database.t)
    (resp : CheckoutResponse.t) (pid : ObjectId) :
  create_checkout req db = (Ok resp, db') ->
  let us := cart_updates (CheckoutRequest.items req) in
  (pid ∉ us.*1 -> Database.find_one db' pid = Database.find_one db pid) /\
  (pid ∈ us.*1 ->
   exists p s,
     Database.find_one db pid = Some p /\
     Product.stock_qty p = Some (Some s) /\
     Database.find_one db' pid = Some (after_update (demand pid us) s p)).
Proof.
  intros H us.
  destruct (checkout_stock_levels _ _ _ _ H) as (Hst & _ & _ & Hother).
  split; [apply Hother |].
  intros Hin.
  apply create_checkout_ok_inv in H as (_ & st & Hfor & _ & Hloop & _).
  destruct (for_items_ok _ _ _ _ Hfor) as (_ & _ & _ & _ & _ & Hupd & _).
  cbn in Hupd. rewrite Hupd in Hloop. fold us in Hloop, Hst.
  assert (Hpos : Forall (fun u => 1 <= u.2) us).
  { eapply Forall_impl; [exact Hst |]. intros u (s & _ & Hq). lia. }
  assert (Hs : exists s, stock_qty_of db pid = Some s).
  { apply list_elem_of_fmap in Hin as ([pid' q] & -> & Hin).
    rewrite Forall_forall in Hst. destruct (Hst _ Hin) as (s & Hs & _). eauto. }
  destruct Hs as [s (p & Hfind & Hstock)%stock_qty_of_Some].
  exists p, s. split; [exact Hfind |]. split; [exact Hstock |].
  exact (for_stock_updates_effect us Hpos _ db' pid p s Hloop Hfind Hstock Hin).
Qed.

(** X4: the whole effect of an accepted cart on the product collection.
    A product that no line names is left exactly as it was. A product that
    lines name, of stock [s], ends with [stock_qty = s - d], where [d] is the
    sum of the quantities of the lines naming it, is flagged out of stock
    when [s - d <= 0], keeps its flag otherwise, and keeps every other
    field. *)
Theorem checkout_effect_on_products
    (req : CheckoutRequest.t) (db db' : Database.t) (resp : CheckoutResponse.t)
    (pid : ObjectId) :
  create_checkout req db = (Ok resp, db') ->
  let us := cart_updates (CheckoutRequest.items req) in
  (pid ∉ us.*1 -> Database.find_one db' pid = Database.find_one db pid) /\
  (pid ∈ us.*1 ->
   exists p s,
     Database.find_one db pid = Some p /\
     Product.stock_qty p = Some (Some s) /\
     Database.find_one db' pid =
       Some (Product.mk (Product.title p) (Product.description p) (Product.price p)
               (Product.category p) (Product.images p) (Product.sku p)
               (if s - demand pid us <=? 0 then Some false else Product.in_stock p)
               (Some (Some (s - demand pid us))))).
Proof.
  intros H us.
  destruct (checkout_effect _ _ _ _ pid H) as [Hother Hnamed].
  split; [exact Hother |].
  intros Hin. destruct (Hnamed Hin) as (p & s & Hfind & Hstock & Hafter).
  exists p, s. split; [exact Hfind |]. split; [exact Hstock |].
  fold us in Hafter. rewrite Hafter. f_equal. unfold after_update.
  destruct (s - demand pid us <=? 0); reflexivity.
Qed.

Lemma checkout_effect_on_products_witness :
  let us := cart_updates (CheckoutRequest.items (cart_of [(scarf_id, 2); (bag_id, 3); (scarf_id, 3)])) in
  (scarf_id ∉ us.*1 ->
   Database.find_one
     (create_checkout (cart_of [(scarf_id, 2); (bag_id, 3); (scarf_id, 3)]) catalog).2 scarf_id
   = Database.find_one catalog scarf_id) /\
  (scarf_id ∈ us.*1 ->
   exists p s,
     Database.find_one catalog scarf_id = Some p /\
     Product.stock_qty p = Some (Some s) /\
     Database.find_one
       (create_checkout (cart_of [(scarf_id, 2); (bag_id, 3); (scarf_id, 3)]) catalog).2 scarf_id
     = Some (Product.mk (Product.title p) (Product.description p) (Product.price p)
               (Product.category p) (Product.images p) (Product.sku p)
               (if s - demand scarf_id us <=? 0 then Some false else Product.in_stock p)
               (Some (Some (s - demand scarf_id us))))).
Proof.
  eapply (checkout_effect_on_products
            (cart_of [(scarf_id, 2); (bag_id, 3); (scarf_id, 3)]) catalog).
  vm_compute. reflexivity.
Defined.

Lemma create_checkout_listing
    (req : CheckoutRequest.t) (db db' : Database.t) (r : result CheckoutResponse.t)
    (pid : ObjectId) :
  create_checkout req db = (r, db') ->
  match Database.find_one db pid, Database.find_one db' pid with
  | Some p, Some p' => same_listing p p'
  | None, None => True
  | _, _ => False
  end.
Proof.
  intros H. destruct r as [resp | e].
  - apply create_checkout_ok_inv in H as (_ & st & _ & _ & Hloop & _).
    apply (for_stock_updates_listing _ pid) in Hloop. exact Hloop.
  - apply create_checkout_raise_unchanged in H as ->.
    destruct (Database.find_one db pid); [apply same_listing_refl | done].
Qed.

(** X5: whatever its outcome, [create_checkout] neither adds nor removes a
    product, and changes no field of a product other than [stock_qty] and
    [in_stock]. *)
Theorem checkout_keeps_the_listing
    (req : CheckoutRequest.t) (db db' : Database.t) (r : result CheckoutResponse.t)
    (pid : ObjectId) :
  create_checkout req db = (r, db') ->
  match Database.find_one db pid, Database.find_one db' pid with
  | Some p, Some p' => same_listing p p'
  | None, None => True
  | _, _ => False
  end.
Proof. apply create_checkout_listing. Qed.

Lemma checkout_keeps_the_listing_witness :
  match Database.find_one catalog scarf_id,
        Database.find_one
          (create_checkout (cart_of [(scarf_id, 5); (bag_id, 3)]) catalog).2 scarf_id with
  | Some p, Some p' => same_listing p p'
  | None, None => True
  | _, _ => False
  end.
Proof.
  eapply (checkout_keeps_the_listing (cart_of [(scarf_id, 5); (bag_id, 3)]) catalog).
  vm_compute. reflexivity.
Defined.

(** X6: the part of the stock invariant that does hold. When no two lines
    of an accepted cart name the same product and every stored stock was
    non-negative, every stock is non-negative afterwards, and a product the
    cart names whose stock has reached 0 is flagged out of stock. *)
Theorem distinct_lines_keep_stock_invariant
    (req : CheckoutRequest.t) (db db' : Database.t) (resp : CheckoutResponse.t) :
  create_checkout req db = (Ok resp, db') ->
  NoDup (cart_updates (CheckoutRequest.items req)).*1 ->
  (forall pid s, stock_qty_of db pid = Some s -> 0 <= s) ->
  (forall pid s, stock_qty_of db' pid = Some s -> 0 <= s) /\
  (forall pid, pid ∈ (cart_updates (CheckoutRequest.items req)).*1 ->
               stock_qty_of db' pid = Some 0 -> in_stock_of db' pid = Some false).
Proof.
  intros H Hnd Hinv. split.
  - by eapply distinct_lines_keep_stock_nonneg.
  - intros pid Hin Hs. by eapply (checkout_flags_depleted _ _ _ _ pid 0).
Qed.

Lemma distinct_lines_keep_stock_invariant_witness :
  (forall pid s,
      stock_qty_of (create_checkout (cart_of [(scarf_id, 5); (bag_id, 3)]) catalog).2 pid
      = Some s -> 0 <= s) /\
  (forall pid,
      pid ∈ (cart_updates (CheckoutRequest.items (cart_of [(scarf_id, 5); (bag_id, 3)]))).*1 ->
      stock_qty_of (create_checkout (cart_of [(scarf_id, 5); (bag_id, 3)]) catalog).2 pid
      = Some 0 ->
      in_stock_of (create_checkout (cart_of [(scarf_id, 5); (bag_id, 3)]) catalog).2 pid
      = Some false).
Proof.
  eapply (distinct_lines_keep_stock_invariant (cart_of [(scarf_id, 5); (bag_id, 3)]) catalog).
  - vm_compute. reflexivity.
  - refine (@bool_decide_unpack _ (NoDup_dec _) _). vm_compute. exact I.
  - intros pid s. unfold stock_qty_of, Database.find_one, catalog. cbn.
    destruct (decide (pid = scarf_id)) as [-> | H1];
      [vm_compute; intros [= <-]; discriminate |].
    rewrite lookup_insert_ne by done.
    destruct (decide (pid = bag_id)) as [-> | H2];
      [vm_compute; intros [= <-]; discriminate |].
    rewrite lookup_insert_ne by done.
    destruct (decide (pid = relic_id)) as [-> | H3];
      [vm_compute; discriminate |].
    rewrite lookup_insert_ne by done. rewrite lookup_empty. discriminate.
Defined.

(** ** The order that is stored *)






(** ** Exceptions that are not caught *)

(** X9: a product whose stored [stock_qty] is null (the [Product] model
    allows it) and which is not flagged out of stock cannot be bought: the
    first line that names it raises [TypeError], not an HTTP error, and the
    checkout writes nothing. *)
Theorem null_stock_raises_type_error
    (db : Database.t) (pre post : list CartItem.t) (item : CartItem.t)
    (st : cart_state) (pid : ObjectId) (prod : Product.t) :
  for_items db pre empty_cart_state = Ok st ->
  ObjectId_of_str (CartItem.product_id item) = Some pid ->
  Database.find_one db pid = Some prod ->
  Product.stock_qty prod = Some None ->
  Product.in_stock prod <> Some false ->
  create_checkout (CheckoutRequest.mk (pre ++ item :: post)) db = (Raise TypeError, db).
Proof.
  intros Hpre Hid Hfind Hstock Hflag.
  apply (first_failing_line _ _ _ _ _ _ Hpre).
  unfold cart_line, ensure_object_id. rewrite Hid. cbn. rewrite Hfind.
  unfold lacks_stock. rewrite Hstock.
  destruct (Product.in_stock prod) as [[] |]; cbn; congruence.
Qed.

Lemma null_stock_raises_type_error_witness :
  create_checkout (cart_of [(scarf_id, 1); (veil_id, 1)]) catalog_odd
  = (Raise TypeError, catalog_odd).
Proof.
  apply (null_stock_raises_type_error catalog_odd [CartItem.mk scarf_id 1] []
           (CartItem.mk veil_id 1)
           (mk_cart_state
              [OrderItem.mk scarf_id "Silk Scarf" 19999 1
                 (Some "https://img.example/scarf.png")]
              19999 [(scarf_id, 1)])
           veil_id veil).
  - vm_compute. reflexivity.
  - vm_compute. reflexivity.
  - vm_compute. reflexivity.
  - reflexivity.
  - discriminate.
Defined.

(** X10: a product in stock whose price times 100 is not finite cannot be
    bought either: when the product is an infinity (an infinite stored
    price, which [ge=0] accepts, or a finite one too large) the first line
    that names it raises [OverflowError], when it is a NaN it raises
    [ValueError]; the checkout writes nothing. *)
Theorem non_finite_price_raises
    (db : Database.t) (pre post : list CartItem.t) (item : CartItem.t)
    (st : cart_state) (pid : ObjectId) (prod : Product.t) :
  for_items db pre empty_cart_state = Ok st ->
  ObjectId_of_str (CartItem.product_id item) = Some pid ->
  Database.find_one db pid = Some prod ->
  lacks_stock prod (CartItem.quantity item) = Ok false ->
  let req := CheckoutRequest.mk (pre ++ item :: post) in
  (forall sgn, price_times_100 prod = S754_infinity sgn ->
               create_checkout req db = (Raise OverflowError, db)) /\
  (price_times_100 prod = S754_nan ->
   create_checkout req db = (Raise ValueError, db)) /\
  (forall sgn, Product.price prod = Some (S754_infinity sgn) ->
               create_checkout req db = (Raise OverflowError, db)).
Proof.
  intros Hpre Hid Hfind Hstock req.
  assert (Hline : forall e, unit_amount_of prod = Raise e -> cart_line db st item = Raise e).
  { intros e He. unfold cart_line, ensure_object_id. rewrite Hid. cbn.
    rewrite Hfind, Hstock. cbn. by rewrite He. }
  assert (Hinf : forall sgn, price_times_100 prod = S754_infinity sgn ->
                             create_checkout req db = (Raise OverflowError, db)).
  { intros sgn Hp. apply (first_failing_line _ _ _ _ _ _ Hpre), Hline.
    unfold unit_amount_of. fold (price_times_100 prod). by rewrite Hp. }
  split; [exact Hinf |]. split.
  - intros Hp. apply (first_failing_line _ _ _ _ _ _ Hpre), Hline.
    unfold unit_amount_of. fold (price_times_100 prod). by rewrite Hp.
  - intros sgn Hprice. apply (Hinf sgn).
    unfold price_times_100. rewrite Hprice. by destruct sgn.
Qed.

Lemma non_finite_price_raises_witness :
  price_ge_0 (S754_infinity false) = true /\
  create_checkout (cart_of [(scarf_id, 1); (gem_id, 1)]) catalog_odd
  = (Raise OverflowError, catalog_odd).
Proof.
  split; [reflexivity |].
  refine (proj2 (proj2
    (non_finite_price_raises catalog_odd [CartItem.mk scarf_id 1] []
       (CartItem.mk gem_id 1)
       (mk_cart_state
          [OrderItem.mk scarf_id "Silk Scarf" 19999 1
             (Some "https://img.example/scarf.png")]
          19999 [(scarf_id, 1)])
       gem_id gem _ _ _ _)) false _).
  - vm_compute. reflexivity.
  - vm_compute. reflexivity.
  - vm_compute. reflexivity.
  - vm_compute. reflexivity.
  - reflexivity.
Defined.

(** ** Carts put together and reordered *)

Lemma create_checkout_accepts (req : CheckoutRequest.t) (db : Database.t) (st : cart_state) :
  CheckoutRequest.items req <> [] ->
  for_items db (CheckoutRequest.items req) empty_cart_state = Ok st ->
  exists db',
    create_checkout req db =
      (Ok (CheckoutResponse.mk (length (Database.order db)) "confirmed"
             (cart_total db (CheckoutRequest.items req)) "usd"), db').
Proof.
  intros Hne Hfor.
  destruct (create_checkout_cases req db)
    as [[Hnil _] | [(_ & e & Hfor' & _) | (_ & st' & db' & Hfor' & Hc & _)]];
    [congruence | congruence |].
  assert (st' = st) as -> by congruence.
  exists db'. cbn zeta in Hc. rewrite Hc.
  by rewrite (for_items_total _ _ _ _ Hfor).
Qed.

Lemma accepted_subtotal (req : CheckoutRequest.t) (db db' : Database.t)
    (resp : CheckoutResponse.t) :
  create_checkout req db = (Ok resp, db') ->
  CheckoutResponse.subtotal resp = cart_total db (CheckoutRequest.items req) /\
  CheckoutResponse.order_id resp = length (Database.order db).
Proof.
  intros H. pose proof H as (Hne & st & Hfor & _)%create_checkout_ok_inv.
  destruct (create_checkout_accepts _ _ _ Hne Hfor) as [db2 Hc].
  rewrite Hc in H. by injection H as <- _.
Qed.

Lemma cart_total_app (db : Database.t) (l1 l2 : list CartItem.t) :
  cart_total db (l1 ++ l2) = cart_total db l1 + cart_total db l2.
Proof.
  unfold cart_total. induction l1 as [| item l1 IH]; cbn; [done | lia].
Qed.



(** X11: carts add up. When the cart made of the lines [l1] followed by the
    lines [l2] is accepted, so is each of the two carts on its own against
    the same store, and the subtotal of the whole is the sum of the two
    subtotals. *)
Theorem subtotal_adds_over_carts
    (l1 l2 : list CartItem.t) (db db' : Database.t) (resp : CheckoutResponse.t) :
  l1 <> [] -> l2 <> [] ->
  create_checkout (CheckoutRequest.mk (l1 ++ l2)) db = (Ok resp, db') ->
  exists r1 d1 r2 d2,
    create_checkout (CheckoutRequest.mk l1) db = (Ok r1, d1) /\
    create_checkout (CheckoutRequest.mk l2) db = (Ok r2, d2) /\
    CheckoutResponse.subtotal resp
    = CheckoutResponse.subtotal r1 + CheckoutResponse.subtotal r2.
Proof.
  intros Hne1 Hne2 H.
  destruct (accepted_subtotal _ _ _ _ H) as [Hsub _].
  apply create_checkout_ok_inv in H as (_ & st & Hfor & _).
  cbn [CheckoutRequest.items] in Hfor, Hsub.
  assert (Hall : Forall (fun item => exists st1, cart_line db empty_cart_state item = Ok st1)
                   (l1 ++ l2))
    by (apply (for_items_lines db _ empty_cart_state); eauto).
  apply Forall_app in Hall as [Hall1 Hall2].
  apply (for_items_lines db _ empty_cart_state) in Hall1 as [st1 Hfor1].
  apply (for_items_lines db _ empty_cart_state) in Hall2 as [st2 Hfor2].
  destruct (create_checkout_accepts (CheckoutRequest.mk l1) db st1 Hne1 Hfor1) as [d1 Hc1].
  destruct (create_checkout_accepts (CheckoutRequest.mk l2) db st2 Hne2 Hfor2) as [d2 Hc2].
  eexists _, d1, _, d2. split; [exact Hc1 |]. split; [exact Hc2 |].
  cbn [CheckoutResponse.subtotal CheckoutRequest.items].
  rewrite Hsub. apply cart_total_app.
Qed.

Lemma subtotal_adds_over_carts_witness :
  exists r1 d1 r2 d2,
    create_checkout (CheckoutRequest.mk [CartItem.mk scarf_id 2]) catalog = (Ok r1, d1) /\
    create_checkout (CheckoutRequest.mk [CartItem.mk bag_id 3; CartItem.mk scarf_id 3]) catalog
      = (Ok r2, d2) /\
    CheckoutResponse.subtotal (CheckoutResponse.mk 0 "confirmed" 100109 "usd")
    = CheckoutResponse.subtotal r1 + CheckoutResponse.subtotal r2.
Proof.
  eapply (subtotal_adds_over_carts [CartItem.mk scarf_id 2]
            [CartItem.mk bag_id 3; CartItem.mk scarf_id 3] catalog).
  - discriminate.
  - discriminate.
  - vm_compute. reflexivity.
Defined.



(** ** Identifiers *)

Lemma hex_digit_canonical (c c' : ascii) :
  hex_digit c = Some c' -> hex_digit c' = Some c'.
Proof.
  destruct c as [[] [] [] [] [] [] [] []]; cbn; intros [= <-]; reflexivity.
Qed.

Lemma hex_digits_canonical (s t : string) :
  hex_digits s = Some t -> String.length t = String.length s /\ hex_digits t = Some t.
Proof.
  revert t. induction s as [| c s IH]; intros t; cbn.
  - intros [= <-]. done.
  - destruct (hex_digit c) as [c' |] eqn:Hc; [| discriminate].
    destruct (hex_digits s) as [t' |]; [| discriminate].
    intros [= <-]. destruct (IH t' eq_refl) as [Hlen Hcan]. cbn.
    rewrite (hex_digit_canonical _ _ Hc), Hcan, Hlen. done.
Qed.

Lemma object_id_canonical (id_str : string) (oid : ObjectId) :
  ensure_object_id id_str = Ok oid ->
  String.length oid = 24%nat /\ ObjectId_of_str oid = Some oid.
Proof.
  unfold ensure_object_id, ObjectId_of_str.
  destruct (Nat.eqb_spec (String.length id_str) 24) as [Hlen |]; [| discriminate].
  destruct (hex_digits id_str) as [t |] eqn:Hhex; [| discriminate].
  intros [= <-]. destruct (hex_digits_canonical _ _ Hhex) as [Hlen' Hcan].
  rewrite Hlen', Hlen. done.
Qed.



(** ** Prices the Product model accepts *)

Lemma round_half_even_div_nonneg (m d : Z) :
  0 <= m -> 0 < d -> 0 <= round_half_even_div m d.
Proof.
  intros Hm Hd. unfold round_half_even_div.
  pose proof (Z.div_pos m d Hm Hd).
  destruct (2 * (m mod d) ?= d); [destruct (Z.even _) | |]; lia.
Qed.

Lemma round_unsigned_nonneg (x : float) (n : Z) :
  match x with
  | S754_finite true _ _ => False
  | _ => True
  end ->
  round x = Ok n -> 0 <= n.
Proof.
  destruct x as [s | s | | [] m e]; cbn; try done; intros _ [= <-]; [lia |].
  destruct (0 <=? e) eqn:He.
  - apply Z.mul_nonneg_nonneg; [lia |]. apply Z.pow_nonneg. lia.
  - apply Z.leb_gt in He. apply round_half_even_div_nonneg; [lia |].
    apply Z.pow_pos_nonneg; lia.
Qed.

Lemma binary_round_aux_unsigned (mx ex : Z) (lx : location) :
  match binary_round_aux prec emax false mx ex lx with
  | S754_finite true _ _ => False
  | _ => True
  end.
Proof.
  unfold binary_round_aux.
  destruct (shr_fexp prec emax mx ex lx) as [mrs' e'].
  destruct (shr_fexp prec emax _ e' loc_Exact) as [mrs'' e''].
  destruct (shr_m mrs''); [done | | done].
  by destruct (e'' <=? emax - prec).
Qed.

(** X14: a price that meets the [Product] model's constraint [ge=0] never
    gives a negative unit amount, so for such a product the [OrderItem]
    constraint [unit_amount >= 0] cannot fail. *)
Theorem valid_price_gives_valid_unit_amount (prod : Product.t) (x : float) (n : Z) :
  Product.price prod = Some x ->
  price_ge_0 x = true ->
  unit_amount_of prod = Ok n ->
  0 <= n.
Proof.
  unfold unit_amount_of, price_ge_0. intros -> Hge. cbn [default].
  apply round_unsigned_nonneg.
  change (float_of_int 0) with (S754_zero false) in Hge.
  change (float_of_int 100) with (S754_finite false 7036874417766400 (-46)).
  destruct x as [s | [] | | [] m e]; cbn in Hge; try discriminate; try done.
  unfold float_mul, SFmul. cbn [xorb]. apply binary_round_aux_unsigned.
Qed.

Lemma valid_price_gives_valid_unit_amount_witness : 0 <= 19999.
Proof.
  apply (valid_price_gives_valid_unit_amount scarf f64_199_99 19999).
  - reflexivity.
  - vm_compute. reflexivity.
  - vm_compute. reflexivity.
Defined.

(** ** The product endpoints *)

Lemma lookup_with_field (k k' : string) (v : option value) (d : gmap string value) :
  with_field k v d !! k' =
    if decide (k' = k) then match v with Some x => Some x | None => d !! k' end
    else d !! k'.
Proof.
  unfold with_field. destruct v as [x |]; case_decide; subst;
    rewrite ?lookup_insert_eq, ?lookup_insert_ne by done; done.
Qed.

Lemma product_doc_lookup (pid : ObjectId) (p : Product.t) (k : string) :
  product_doc pid p !! k =
    if decide (k = "_id") then Some (VObjectId pid)
    else if decide (k = "title") then VStr <$> Product.title p
    else if decide (k = "description") then VStr <$> Product.description p
    else if decide (k = "price") then VFloat <$> Product.price p
    else if decide (k = "category") then VStr <$> Product.category p
    else if decide (k = "images") then (fun l => VList (VStr <$> l)) <$> Product.images p
    else if decide (k = "sku") then VStr <$> Product.sku p
    else if decide (k = "in_stock") then VBool <$> Product.in_stock p
    else if decide (k = "stock_qty") then stock_value <$> Product.stock_qty p
    else None.
Proof.
  unfold product_doc. rewrite lookup_insert. rewrite !lookup_with_field, lookup_empty.
  destruct (decide ("_id" = k)) as [<- | Hid]; [done |].
  destruct (decide (k = "_id")) as [-> | _]; [done |].
  repeat (case_decide; [subst k;
    repeat (case_decide; [discriminate |]);
    match goal with |- match ?o with _ => _ end = _ => by destruct o end |]).
  done.
Qed.

Lemma to_str_id_with_id (str : value -> string) (d : gmap string value) (v : value) :
  d !! "_id" = Some v -> v <> VNone ->
  to_str_id str (Some d) = Some (<["id" := VStr (str v)]> (delete "_id" d)).
Proof.
  intros Hid Hv. unfold to_str_id.
  destruct (Nat.eqb_spec (size d) 0) as [Hsize |].
  - apply map_size_empty_inv in Hsize. subst d. by rewrite lookup_empty in Hid.
  - rewrite Hid. by destruct v.
Qed.

Lemma to_str_id_product_doc (str : value -> string) (pid : ObjectId) (p : Product.t) :
  to_str_id str (Some (product_doc pid p)) =
    Some (<["id" := VStr (str (VObjectId pid))]> (delete "_id" (product_doc pid p))).
Proof.
  apply to_str_id_with_id; [| done]. unfold product_doc. apply lookup_insert_eq.
Qed.

Lemma to_str_id_without_id (str : value -> string) (d : gmap string value) :
  d !! "_id" = None \/ d !! "_id" = Some VNone ->
  to_str_id str (Some d) = Some d.
Proof.
  intros H. unfold to_str_id.
  destruct (size d =? 0)%nat; [done |]. by destruct H as [-> | ->].
Qed.

(** X15: [to_str_id] is idempotent: applied to its own result it changes
    nothing further. *)
Theorem to_str_id_idempotent (str : value -> string) (doc : option (gmap string value)) :
  to_str_id str (to_str_id str doc) = to_str_id str doc.
Proof.
  destruct doc as [d |]; [| reflexivity].
  destruct (d !! "_id") as [v |] eqn:Hid.
  - assert (Hcase : v = VNone \/ v <> VNone) by (destruct v; auto; by right).
    destruct Hcase as [-> | Hv].
    + rewrite !to_str_id_without_id; auto.
    + rewrite (to_str_id_with_id str d v Hid Hv).
      apply to_str_id_without_id. left.
      by rewrite lookup_insert_ne, lookup_delete_eq.
  - rewrite !to_str_id_without_id; auto.
Qed.

(** X16: what [to_str_id] does to the keys of a non-empty dictionary. When
    [_id] is missing or [None] the dictionary is returned as it is, an [id]
    it may have included. Otherwise the result has no [_id], has the [str]
    of the old [_id] under [id], overwriting an [id] that was there, and
    agrees with the dictionary on every other key. *)
Theorem to_str_id_keys (str : value -> string) (d : gmap string value) :
  match d !! "_id" with
  | None | Some VNone => to_str_id str (Some d) = Some d
  | Some v =>
      exists d',
        to_str_id str (Some d) = Some d' /\
        d' !! "_id" = None /\
        d' !! "id" = Some (VStr (str v)) /\
        forall k, k <> "_id" -> k <> "id" -> d' !! k = d !! k
  end.
Proof.
  destruct (d !! "_id") as [v |] eqn:Hid.
  2: { unfold to_str_id. rewrite Hid. by destruct (size d =? 0)%nat. }
  assert (Hcase : v = VNone \/ v <> VNone) by (destruct v; auto; by right).
  destruct Hcase as [-> | Hv].
  { unfold to_str_id. rewrite Hid. by destruct (size d =? 0)%nat. }
  pose proof (to_str_id_with_id str d v Hid Hv) as Heq.
  assert (Hgoal : exists d',
             to_str_id str (Some d) = Some d' /\
             d' !! "_id" = None /\
             d' !! "id" = Some (VStr (str v)) /\
             forall k, k <> "_id" -> k <> "id" -> d' !! k = d !! k).
  { eexists. split; [exact Heq |].
    split; [by rewrite lookup_insert_ne, lookup_delete_eq |].
    split; [apply lookup_insert_eq |].
    intros k H1 H2. by rewrite lookup_insert_ne, lookup_delete_ne. }
  by destruct v.
Qed.


(** X18: an id that [get_product] hands out can be used to fetch the same
    product again: when [str] prints an [ObjectId] as its hexadecimal
    digits, the [id] of an answer, sent back, gives the same answer. *)
Theorem get_product_round_trip
    (str : value -> string) (product_id : string) (db : Database.t)
    (r : option (gmap string value)) :
  (forall oid, str (VObjectId oid) = oid) ->
  get_product str product_id db = Ok r ->
  exists d oid,
    r = Some d /\ d !! "id" = Some (VStr oid) /\ get_product str oid db = Ok r.
Proof.
  intros Hstr. unfold get_product.
  destruct (ensure_object_id product_id) as [pid |] eqn:Hid;
    [cbn [Py.bind] | discriminate].
  destruct (Database.find_one db pid) as [p |] eqn:Hfind; [| discriminate].
  rewrite to_str_id_product_doc, Hstr. intros [= <-].
  eexists _, pid. split; [reflexivity |]. split; [apply lookup_insert_eq |].
  destruct (object_id_canonical _ _ Hid) as [_ Hcan].
  unfold ensure_object_id. rewrite Hcan. cbn [Py.bind].
  by rewrite Hfind, to_str_id_product_doc, Hstr.
Qed.

Lemma get_product_round_trip_witness :
  exists d oid,
    to_str_id str_id (Some (product_doc scarf_id scarf)) = Some d /\
    d !! "id" = Some (VStr oid) /\
    get_product str_id oid catalog = Ok (to_str_id str_id (Some (product_doc scarf_id scarf))).
Proof.
  apply (get_product_round_trip str_id "64B7F0C2A1D3E4F5A6B7C8D9" catalog).
  - reflexivity.
  - vm_compute. reflexivity.
Defined.

(** X19: [list_products] lists the store: it returns one entry per stored
    product and, when the stored ids are in canonical form, an entry is
    listed exactly when [get_product] returns it for the id of a stored
    product. *)
Theorem list_products_lists_the_store
    (str : value -> string) (db : Database.t) :
  (forall pid, is_Some (Database.product db !! pid) -> ObjectId_of_str pid = Some pid) ->
  length (list_products str db) = size (Database.product db) /\
  forall x,
    x ∈ list_products str db <->
    exists pid, is_Some (Database.product db !! pid) /\ get_product str pid db = Ok x.
Proof.
  intros Hcanon. unfold list_products, get_documents. unfold ObjectId in *.
  split; [by rewrite !length_fmap, length_map_to_list |].
  intros x. rewrite list_elem_of_fmap. split.
  - intros (d & -> & ([pid p] & -> & Hin%elem_of_map_to_list)%list_elem_of_fmap).
    exists pid. split; [eauto |]. cbn.
    unfold get_product, ensure_object_id. rewrite (Hcanon pid) by eauto.
    cbn [Py.bind]. unfold Database.find_one. unfold ObjectId in *. by rewrite Hin.
  - intros (pid & [p Hp] & Hget).
    unfold get_product, ensure_object_id in Hget. rewrite (Hcanon pid) in Hget by eauto.
    cbn [Py.bind] in Hget. unfold Database.find_one in Hget.
    unfold ObjectId in *. rewrite Hp in Hget.
    assert (x = to_str_id str (Some (product_doc pid p))) as -> by congruence.
    exists (product_doc pid p). split; [done |].
    apply list_elem_of_fmap. exists (pid, p). split; [done |].
    by apply elem_of_map_to_list.
Qed.

Lemma list_products_lists_the_store_witness :
  length (list_products str_id catalog) = size (Database.product catalog) /\
  forall x,
    x ∈ list_products str_id catalog <->
    exists pid, is_Some (Database.product catalog !! pid) /\ get_product str_id pid catalog = Ok x.
Proof.
  apply (list_products_lists_the_store str_id catalog).
  intros pid [p Hp]. unfold catalog in Hp. cbn in Hp.
  destruct (decide (pid = scarf_id)) as [-> | H1]; [vm_compute; reflexivity |].
  rewrite lookup_insert_ne in Hp by done.
  destruct (decide (pid = bag_id)) as [-> | H2]; [vm_compute; reflexivity |].
  rewrite lookup_insert_ne in Hp by done.
  destruct (decide (pid = relic_id)) as [-> | H3]; [vm_compute; reflexivity |].
  rewrite lookup_insert_ne in Hp by done. by rewrite lookup_empty in Hp.
Defined.

(** X20: what a checkout can change in the answers of [get_product]. After
    any call of [create_checkout], accepted or not, [get_product] raises the
    same error as before for an id it rejected, and for every other id its
    answer differs from the former one at most under the keys [stock_qty]
    and [in_stock]. *)
Theorem checkout_changes_only_stock_keys
    (str : value -> string) (req : CheckoutRequest.t) (db db' : Database.t)
    (r : result CheckoutResponse.t) (product_id : string) :
  create_checkout req db = (r, db') ->
  match get_product str product_id db, get_product str product_id db' with
  | Ok (Some d), Ok (Some d') =>
      forall k, k <> "stock_qty" -> k <> "in_stock" -> d' !! k = d !! k
  | Raise e, Raise e' => e = e'
  | _, _ => False
  end.
Proof.
  intros H. unfold get_product.
  destruct (ensure_object_id product_id) as [pid |]; [cbn [Py.bind] | reflexivity].
  pose proof (create_checkout_listing _ _ _ _ pid H) as Hl.
  destruct (Database.find_one db pid) as [p |], (Database.find_one db' pid) as [p' |];
    try done.
  rewrite !to_str_id_product_doc.
  destruct Hl as (Ht & Hd & Hp & Hc & Hi & Hs).
  intros k Hk1 Hk2.
  destruct (decide (k = "id")) as [-> | Hne]; [by rewrite !lookup_insert_eq |].
  rewrite !lookup_insert_ne by done.
  destruct (decide (k = "_id")) as [-> | Hne']; [by rewrite !lookup_delete_eq |].
  rewrite !lookup_delete_ne by done.
  rewrite !product_doc_lookup, Ht, Hd, Hp, Hc, Hi, Hs.
  repeat (case_decide; [done |]). done.
Qed.

Lemma checkout_changes_only_stock_keys_witness :
  match get_product str_id scarf_id catalog,
        get_product str_id scarf_id
          (create_checkout (cart_of [(scarf_id, 5); (bag_id, 3)]) catalog).2 with
  | Ok (Some d), Ok (Some d') =>
      forall k, k <> "stock_qty" -> k <> "in_stock" -> d' !! k = d !! k
  | Raise e, Raise e' => e = e'
  | _, _ => False
  end.
Proof.
  eapply (checkout_changes_only_stock_keys str_id (cart_of [(scarf_id, 5); (bag_id, 3)])
            catalog).
  vm_compute. reflexivity.
Defined.

(** ** The health check *)

Lemma string_app_cons (c : ascii) (s t : string) : String c s ++ t = String c (s ++ t).
Proof. reflexivity. Qed.

Lemma str_len_app (s1 s2 : string) : str_len (s1 ++ s2) = (str_len s1 + str_len s2)%nat.
Proof.
  induction s1 as [| c s1 IH]; [done |].
  rewrite string_app_cons. cbn [str_len].
  destruct (is_continuation c); rewrite IH; done.
Qed.

Lemma str_len_take (n : nat) (s : string) : (str_len (str_take n s) <= n)%nat.
Proof.
  revert n. induction s as [| c s IH]; intros n; cbn; [lia |].
  destruct (is_continuation c) eqn:Hc; cbn.
  - rewrite Hc. apply IH.
  - destruct n as [| n]; cbn; [lia |]. rewrite Hc. specialize (IH n). lia.
Qed.

Lemma str_take_all (n : nat) (s : string) : (str_len s <= n)%nat -> str_take n s = s.
Proof.
  revert n. induction s as [| c s IH]; intros n; cbn; [done |].
  destruct (is_continuation c); cbn.
  - intros H. by rewrite IH.
  - destruct n as [| n]; [lia |]. intros H. rewrite IH; [done | lia].
Qed.

Lemma str_take_prefix (n : nat) (s : string) : exists rest, s = str_take n s ++ rest.
Proof.
  revert n. induction s as [| c s IH]; intros n; cbn [str_take]; [by exists "" |].
  destruct (is_continuation c).
  - destruct (IH n) as [rest Hrest]. exists rest.
    rewrite string_app_cons. by rewrite <- Hrest.
  - destruct n as [| n]; [by eexists |].
    destruct (IH n) as [rest Hrest]. exists rest.
    rewrite string_app_cons. by rewrite <- Hrest.
Qed.


(** X22: the collections [test_database] reports are the first ten, at
    most, of those the database lists, and none at all when there is no
    handle or a call on it raises; [connection_status] is "Connected"
    exactly when there is a handle whose name can be read. *)
Theorem health_lists_at_most_ten
    (db : option handle) (getenv : string -> option string) :
  (length (collections (test_database db getenv)) <= 10)%nat /\
  collections (test_database db getenv)
  = match db with
    | Some (mk_handle (Returns _) (Returns names)) => take 10 names
    | _ => []
    end /\
  (connection_status (test_database db getenv) = "Connected" <->
   exists h db_name, db = Some h /\ name h = Returns db_name).
Proof.
  destruct db as [[[db_name | e] [names | e']] |].
  - split; [change (length (take 10 names) <= 10)%nat; rewrite length_take; lia |].
    split; [reflexivity |].
    split; [intros _; eexists _, _; split; reflexivity | reflexivity].
  - split; [change (0 <= 10)%nat; lia |]. split; [reflexivity |].
    split; [intros _; eexists _, _; split; reflexivity | reflexivity].
  - split; [change (0 <= 10)%nat; lia |]. split; [reflexivity |].
    split; [intros H; vm_compute in H; discriminate H
           | intros (h & n & [= <-] & H); discriminate H].
  - split; [change (0 <= 10)%nat; lia |]. split; [reflexivity |].
    split; [intros H; vm_compute in H; discriminate H
           | intros (h & n & [= <-] & H); discriminate H].
  - split; [change (0 <= 10)%nat; lia |]. split; [reflexivity |].
    split; [intros H; vm_compute in H; discriminate H
           | intros (h & n & H & _); discriminate H].
Qed.

Lemma health_database_text (db : option handle) (getenv : string -> option string) :
  database (test_database db getenv) =
    match db with
    | None => "⚠️ Available but not initialized"
    | Some h =>
        match name h, list_collection_names h with
        | Throws e, _ => "❌ Error: " ++ str_take 80 e
        | Returns _, Returns _ => "✅ Connected & Working"
        | Returns _, Throws e => "⚠️ Connected but Error: " ++ str_take 80 e
        end
    end.
Proof. destruct db as [[[db_name | e] [names | e']] |]; reflexivity. Qed.

(** X23: the [database] text of [test_database] is never the initial "Not
    Available" and never longer than 104 characters: an exception's message
    is cut to its first 80 characters, and shown in full when it has no
    more. *)
Theorem health_error_text_is_cut
    (db : option handle) (getenv : string -> option string) :
  database (test_database db getenv) <> "❌ Not Available" /\
  (str_len (database (test_database db getenv)) <= 104)%nat /\
  (forall db_name e,
      db = Some (mk_handle (Returns db_name) (Throws e)) ->
      exists shown rest,
        database (test_database db getenv) = "⚠️ Connected but Error: " ++ shown /\
        e = shown ++ rest /\
        (str_len shown <= 80)%nat /\
        ((str_len e <= 80)%nat -> shown = e)) /\
  (forall e listing,
      db = Some (mk_handle (Throws e) listing) ->
      database (test_database db getenv) = "❌ Error: " ++ str_take 80 e).
Proof.
  rewrite health_database_text.
  split; [| split; [| split]].
  - destruct db as [[[db_name | e] [names | e']] |]; cbn [name list_collection_names].
    + intros H. vm_compute in H. discriminate H.
    + intros H. change ("⚠️ Connected but Error: " ++ str_take 80 e')
        with (String "226" (String "154" (String "160"
                (String "239" (String "184" (String "143"
                   (" Connected but Error: " ++ str_take 80 e'))))))) in H.
      injection H as H _. vm_compute in H. discriminate H.
    + intros H. change ("❌ Error: " ++ str_take 80 e)
        with (String "226" (String "157" (String "140" (String " " (String "E"
                (("rror: " ++ str_take 80 e)%string)))))) in H.
      injection H as _ _ _ _ H _. vm_compute in H. discriminate H.
    + intros H. change ("❌ Error: " ++ str_take 80 e)
        with (String "226" (String "157" (String "140" (String " " (String "E"
                (("rror: " ++ str_take 80 e)%string)))))) in H.
      injection H as _ _ _ _ H _. vm_compute in H. discriminate H.
    + intros H. vm_compute in H. discriminate H.
  - destruct db as [[[db_name | e] [names | e']] |]; cbn [name list_collection_names].
    + vm_compute. lia.
    + rewrite str_len_app. pose proof (str_len_take 80 e').
      change (str_len "⚠️ Connected but Error: ") with 24%nat. lia.
    + rewrite str_len_app. pose proof (str_len_take 80 e).
      change (str_len "❌ Error: ") with 9%nat. lia.
    + rewrite str_len_app. pose proof (str_len_take 80 e).
      change (str_len "❌ Error: ") with 9%nat. lia.
    + vm_compute. lia.
  - intros db_name e ->. cbn [name list_collection_names].
    destruct (str_take_prefix 80 e) as [rest Hrest].
    exists (str_take 80 e), rest.
    split; [reflexivity |]. split; [exact Hrest |]. split; [apply str_len_take |].
    apply str_take_all.
  - intros e listing ->. reflexivity.
Qed.
